(** * app-portal: the catalog server of [server.js]

    A shallow embedding of the Express application in [src/server.js]: the
    start-up check of the environment, the [isAuthenticated] gate, the CRUD
    handlers over the [apps] table, the health proxy and the login/logout
    handlers, followed by the properties the specification states about them.

    What the program reaches through its libraries is modelled next to the
    code that uses it and named after it:
    - the PostgreSQL table behind [pool.query] is a list of rows and the
      counter of the [SERIAL] column; each of the four SQL statements of the
      source is one function on it;
    - the session store of [express-session] (the default in-memory store,
      no [store] option is passed) is a finite map from session ids to the
      session objects;
    - what a handler cannot decide by itself comes in a [World]: whether the
      database answers, the instant at which it runs the statement and the
      time zones of the database session and of the server process, the id
      drawn for a new session and the answer of the network to an outbound GET;
    - the input function of the store's integer type, which reads the [:id]
      of a path, is a parameter [int4in] of the handlers. *)

From Stdlib Require Import ZArith String Ascii List Lia.
From stdpp Require Import base option list gmap strings sorting.

Local Open Scope Z_scope.

(** ** Data model *)

(** A row of [apps], with the columns of the [CREATE TABLE] statement.
    [title] and [url] are [TEXT NOT NULL]; [image] and [healthpath] may hold
    SQL NULL ([None]); [created_at] is a reading of the database clock. *)
Module App.
Record t := mk {
  id : Z;
  title : string;
  url : string;
  image : option string;
  healthpath : option string;
  created_at : Z
}.
End App.

(** The object [express-session] keeps per session id. A field the code never
    assigned reads [undefined] in JavaScript, which is falsy: [authenticated]
    is [false] and [user] is [None] on a new session. *)
Record Session := { authenticated : bool; user : option string }.

Definition new_session : Session := {| authenticated := false; user := None |}.

(** [req.body] of the app routes: [{ title, url, image, healthpath }]. A field
    is a text or is missing/null ([None]); the driver sends the latter as SQL
    NULL. *)
Record AppBody := {
  body_title : option string;
  body_url : option string;
  body_image : option string;
  body_healthpath : option string
}.

(** [req.body] of [POST /login]: [{ username, password }]. A field is a string
    or is missing ([None], [undefined] in the handler). *)
Record LoginBody := { username : option string; password : option string }.

(** The routes registered on [app]. [:id] is the path segment as Express
    hands it over (a string); [?url=] of the proxy is [None] when the query
    has no such parameter. *)
Inductive Route :=
| GET_api_apps
| POST_api_apps (b : AppBody)
| PUT_api_apps (id : string) (b : AppBody)
| DELETE_api_apps (id : string)
| GET_proxy_health (url : option string)
| GET_login
| POST_login (b : LoginBody)
| GET_logout
| GET_admin
| GET_api_config.

(** A request: its route, the session id its cookie carries and
    [req.headers.accept]. *)
Record Request := {
  route : Route;
  cookie : option string;
  accept : option string
}.

(** Response bodies, one constructor per shape the handlers send. *)
Inductive Body :=
| json_error (error : string)
| json_error_details (error details : string)
| json_message (message : string)
| json_app (row : App.t)
| json_apps (rows : list App.t)
| json_removed (message : string) (removedApp : App.t)
| json_config (companyName companyIcon : string)
| json_undefined
| file (dir name : string)
| status_text
| redirect_to (location : string).

Record Response := { status : Z; body : Body }.

(** [res.json(b)] answers 200; [res.status(c).json(b)] answers [c]. *)
Definition json (b : Body) : Response := {| status := 200; body := b |}.
Definition status_json (c : Z) (b : Body) : Response := {| status := c; body := b |}.
(** [res.redirect(loc)]: 302 Found. *)
Definition redirect (loc : string) : Response := {| status := 302; body := redirect_to loc |}.
(** [res.sendStatus(c)]: status [c], the body is the reason phrase of [c]. *)
Definition sendStatus (c : Z) : Response := {| status := c; body := status_text |}.
Definition sendFile (dir name : string) : Response := {| status := 200; body := file dir name |}.

(** ** The environment of a request *)

(** The outcome of [await fetch(url)]: a response of the target, with its
    status and body, or a thrown error with its message. *)
Inductive FetchResult :=
| fetched (target_status : Z) (target_body : string)
| fetch_failed (message : string).

Record World := {
  db_fault : option string;   (* the statement fails for a reason the table does not
                                 decide (no connection, no such relation, a text the
                                 server cannot store): the error's message *)
  ran_at : Z;                 (* the instant at which the statement runs, in seconds *)
  db_zone : Z;                (* offset from UTC of the database session's time zone *)
  node_zone : Z;              (* offset from UTC of the server process's time zone *)
  uid : string;               (* the id generated for a session that is new *)
  fetch : string → FetchResult
}.

(** [CURRENT_TIMESTAMP] as the [TIMESTAMP] column takes it: the column has no
    time zone and holds the wall clock of the database session's zone. *)
Definition db_now (w : World) : Z := ran_at w + db_zone w.

(** The instant a value of the [TIMESTAMP] column stands for once the driver
    has read it: with no zone in the value, it is taken as a wall clock of the
    server process's zone. This is the [created_at] a response carries. *)
Definition read_timestamp (w : World) (v : Z) : Z := v - node_zone w.

(** ** The store behind [pool.query] *)

Inductive pg_error :=
| database_error (message : string)
| invalid_text_representation (input : string)
| numeric_value_out_of_range (input : string)
| not_null_violation (column : string)
| sequence_limit.

Definition dquote : string := String (ascii_of_nat 34) EmptyString.

(** [err.message] *)
Definition pg_message (e : pg_error) : string :=
  match e with
  | database_error m => m
  | invalid_text_representation s =>
      "invalid input syntax for type integer: " +:+ dquote +:+ s +:+ dquote
  | numeric_value_out_of_range s =>
      "value " +:+ dquote +:+ s +:+ dquote +:+ " is out of range for type integer"
  | not_null_violation c =>
      "null value in column " +:+ dquote +:+ c +:+ dquote +:+
      " of relation " +:+ dquote +:+ "apps" +:+ dquote +:+
      " violates not-null constraint"
  | sequence_limit =>
      "nextval: reached maximum value of sequence " +:+ dquote +:+
      "apps_id_seq" +:+ dquote +:+ " (2147483647)"
  end.

(** The promise of [pool.query]: rejected with an error, or resolved with
    [result.rows]. *)
Inductive QueryResult :=
| rejected (err : pg_error)
| resolved (rows : list App.t).

(** The table and the sequence that feeds its [SERIAL] column. *)
Record Db := { apps : list App.t; apps_id_seq : Z }.

(** What [CREATE TABLE IF NOT EXISTS] creates when the table was absent. *)
Definition fresh_db : Db := {| apps := []; apps_id_seq := 1 |}.

Definition int4_max : Z := 2147483647.

(** [ORDER BY created_at DESC]: [a] may precede [b]. *)
Definition newest_first (a b : App.t) : Prop := App.created_at b ≤ App.created_at a.

Global Instance newest_first_dec a b : Decision (newest_first a b).
Proof. unfold newest_first. apply _. Defined.

(** [SELECT * FROM apps ORDER BY created_at DESC] *)
Definition select_apps (w : World) (d : Db) : QueryResult :=
  match db_fault w with
  | Some m => rejected (database_error m)
  | None => resolved (merge_sort newest_first (apps d))
  end.

(** [INSERT INTO apps (title, url, image, healthpath) VALUES ($1, $2, $3, $4)
    RETURNING *]. The defaults are computed first ([id] from the sequence,
    [created_at] from the clock), then the NOT NULL constraints are checked in
    column order; a value taken from the sequence is not given back when the
    row is refused. *)
Definition insert_app (w : World) (d : Db) (b : AppBody) : Db * QueryResult :=
  match db_fault w with
  | Some m => (d, rejected (database_error m))
  | None =>
      if decide (int4_max < apps_id_seq d) then (d, rejected sequence_limit)
      else
        let d' := {| apps := apps d; apps_id_seq := apps_id_seq d + 1 |} in
        match body_title b, body_url b with
        | None, _ => (d', rejected (not_null_violation "title"))
        | Some _, None => (d', rejected (not_null_violation "url"))
        | Some t, Some u =>
            let r := App.mk (apps_id_seq d) t u (body_image b) (body_healthpath b) (db_now w) in
            ({| apps := apps d ++ [r]; apps_id_seq := apps_id_seq d + 1 |}, resolved [r])
        end
  end.

(** [SET title = $1, url = $2, image = $3, healthpath = $4] on one row. *)
Definition set_fields (t u : string) (i h : option string) (r : App.t) : App.t :=
  App.mk (App.id r) t u i h (App.created_at r).

Definition has_id (n : Z) (r : App.t) : bool := bool_decide (App.id r = n).

(** What the input function of the store's integer type makes of a text: the
    integer it reads, or one of its two errors. *)
Inductive Int4 :=
| int4 (n : Z)
| out_of_range
| invalid_syntax.


Section Store.
(** The input function of the store's integer type, applied to the text of
    [$5] (resp. [$1]) because [id] is an integer column. *)
Variable int4in : string → Int4.

(** [UPDATE apps SET ... WHERE id = $5 RETURNING *]. The constraints are
    checked on the rows the statement rewrites: with no row of that id there
    is nothing to check. *)
Definition update_app (w : World) (d : Db) (b : AppBody) (id : string) : Db * QueryResult :=
  match db_fault w with
  | Some m => (d, rejected (database_error m))
  | None =>
      match int4in id with
      | invalid_syntax => (d, rejected (invalid_text_representation id))
      | out_of_range => (d, rejected (numeric_value_out_of_range id))
      | int4 n =>
          if forallb (λ r, negb (has_id n r)) (apps d) then (d, resolved [])
          else
            match body_title b, body_url b with
            | None, _ => (d, rejected (not_null_violation "title"))
            | Some _, None => (d, rejected (not_null_violation "url"))
            | Some t, Some u =>
                let upd := set_fields t u (body_image b) (body_healthpath b) in
                ({| apps := map (λ r, if has_id n r then upd r else r) (apps d);
                    apps_id_seq := apps_id_seq d |},
                 resolved (map upd (filter (λ r, has_id n r = true) (apps d))))
            end
      end
  end.

(** [DELETE FROM apps WHERE id = $1 RETURNING *] *)
Definition delete_app (w : World) (d : Db) (id : string) : Db * QueryResult :=
  match db_fault w with
  | Some m => (d, rejected (database_error m))
  | None =>
      match int4in id with
      | invalid_syntax => (d, rejected (invalid_text_representation id))
      | out_of_range => (d, rejected (numeric_value_out_of_range id))
      | int4 n =>
          ({| apps := filter (λ r, has_id n r = false) (apps d);
              apps_id_seq := apps_id_seq d |},
           resolved (filter (λ r, has_id n r = true) (apps d)))
      end
  end.
End Store.

(** ** Start-up *)

(** [process.env], the variables the program reads. *)
Record Env := {
  PORT : option string;
  SESSION_SECRET : option string;
  DATABASE_URL : option string;
  ADMIN_USERNAME : option string;
  ADMIN_PASSWORD : option string;
  COMPANY_NAME : option string;
  COMPANY_ICON_URL : option string
}.

(** JavaScript truthiness of a value that is a string or [undefined]: only
    [undefined] and the empty string are falsy. *)
Definition truthy (v : option string) : bool :=
  match v with
  | Some (String _ _) => true
  | _ => false
  end.

Inductive Startup :=
| exit (code : Z)
| proceeds.

(** Lines 13 to 22: [if (!DATABASE_URL || !SESSION_SECRET || !ADMIN_USERNAME ||
    !ADMIN_PASSWORD) process.exit(1)]. *)
Definition startup (env : Env) : Startup :=
  if negb (truthy (DATABASE_URL env)) || negb (truthy (SESSION_SECRET env))
     || negb (truthy (ADMIN_USERNAME env)) || negb (truthy (ADMIN_PASSWORD env))
  then exit 1
  else proceeds.

(** [a || b] on strings. *)
Definition or_else (v : option string) (d : string) : string :=
  match v with
  | Some (String c s) => String c s
  | _ => d
  end.

(** ** Sessions *)

(** The state of the running server: the database and the session store. *)
Record State := { db : Db; sessions : gmap string Session }.

Definition with_db (st : State) (d : Db) : State := {| db := d; sessions := sessions st |}.

(** The session middleware: [req.sessionID] and [req.session]. The session of
    the cookie when the store has it, a new one otherwise (not stored until a
    handler writes to it: [saveUninitialized: false]). *)
Definition load_session (w : World) (st : State) (req : Request) : string * Session :=
  match cookie req with
  | Some sid =>
      match sessions st !! sid with
      | Some s => (sid, s)
      | None => (uid w, new_session)
      end
  | None => (uid w, new_session)
  end.

(** [store.destroy(sid, callback)] of the in-memory store: the entry is
    deleted and the callback gets no error. *)
Definition destroy (sid : string) (store : gmap string Session)
  : gmap string Session * option string :=
  (delete sid store, None).

(** [hay.includes(needle)] *)
Fixpoint includes (needle hay : string) : bool :=
  String.prefix needle hay ||
  match hay with
  | EmptyString => false
  | String _ rest => includes needle rest
  end.

(** ** The gate *)

Inductive Gate :=
| next
| ended (res : Response).

(** Lines 58 to 66. *)
Definition isAuthenticated (session : option Session) (accept : option string) : Gate :=
  if match session with Some s => authenticated s | None => false end then next
  else if truthy accept &&
          match accept with Some a => includes "application/json" a | None => false end
  then ended (status_json 401 (json_error "Yetkisiz erişim. Lütfen giriş yapın."))
  else ended (redirect "/login").

(** ** Route handlers *)

Section Server.
Variable int4in : string → Int4.
Variable env : Env.

(** [GET /api/apps] *)
Definition get_api_apps (w : World) (st : State) : State * Response :=
  match select_apps w (db st) with
  | resolved rows => (st, json (json_apps rows))
  | rejected err => (st, status_json 500 (json_error (pg_message err)))
  end.

(** [res.json(result.rows[0])] *)
Definition json_first (rows : list App.t) : Response :=
  match rows with
  | r :: _ => json (json_app r)
  | [] => json json_undefined
  end.

(** [POST /api/apps] *)
Definition post_api_apps (w : World) (st : State) (b : AppBody) : State * Response :=
  let '(d, result) := insert_app w (db st) b in
  match result with
  | resolved rows => (with_db st d, json_first rows)
  | rejected err => (with_db st d, status_json 500 (json_error (pg_message err)))
  end.

(** [PUT /api/apps/:id] *)
Definition put_api_apps (w : World) (st : State) (id : string) (b : AppBody)
  : State * Response :=
  let '(d, result) := update_app int4in w (db st) b id in
  match result with
  | resolved rows =>
      if bool_decide (length rows = 0%nat)
      then (with_db st d, status_json 404 (json_error "Uygulama bulunamadı."))
      else (with_db st d, json_first rows)
  | rejected err => (with_db st d, status_json 500 (json_error (pg_message err)))
  end.

(** [DELETE /api/apps/:id] *)
Definition delete_api_apps (w : World) (st : State) (id : string) : State * Response :=
  let '(d, result) := delete_app int4in w (db st) id in
  match result with
  | resolved rows =>
      match rows with
      | [] => (with_db st d, status_json 404 (json_error "Uygulama bulunamadı."))
      | r :: _ => (with_db st d, json (json_removed "Uygulama silindi." r))
      end
  | rejected err => (with_db st d, status_json 500 (json_error (pg_message err)))
  end.

(** [GET /proxy-health] *)
Definition get_proxy_health (w : World) (st : State) (url : option string)
  : State * Response :=
  match url with
  | Some (String c s) =>
      match fetch w (String c s) with
      | fetched code _ => (st, sendStatus code)
      | fetch_failed m =>
          (st, status_json 500 (json_error_details "Health check başarısız." m))
      end
  | _ => (st, status_json 400 (json_error "Health URL belirtilmedi."))
  end.

(** [POST /login]: [username === ADMIN_USERNAME && password === ADMIN_PASSWORD]
    on values that are a string or [undefined]. *)
Definition post_login (w : World) (st : State) (req : Request) (b : LoginBody)
  : State * Response :=
  let '(sid, s) := load_session w st req in
  if bool_decide (username b = ADMIN_USERNAME env)
     && bool_decide (password b = ADMIN_PASSWORD env)
  then
    ({| db := db st;
        sessions := <[sid := {| authenticated := true; user := username b |}]> (sessions st) |},
     json (json_message "Giriş başarılı!"))
  else (st, status_json 401 (json_error "Geçersiz kimlik bilgileri.")).

(** [GET /logout] *)
Definition get_logout (w : World) (st : State) (req : Request) : State * Response :=
  let '(sid, _) := load_session w st req in
  let '(store, err) := destroy sid (sessions st) in
  let st' := {| db := db st; sessions := store |} in
  match err with
  | Some _ => (st', status_json 500 (json_error "Çıkış yapılamadı."))
  | None => (st', json (json_message "Başarıyla çıkış yapıldı."))
  end.

(** [GET /api/config] *)
Definition get_api_config : Response :=
  json (json_config (or_else (COMPANY_NAME env) "Default Company")
                    (or_else (COMPANY_ICON_URL env) "https://via.placeholder.com/40")).

(** The last function registered on each route. *)
Definition handler (w : World) (st : State) (req : Request) : State * Response :=
  match route req with
  | GET_api_apps => get_api_apps w st
  | POST_api_apps b => post_api_apps w st b
  | PUT_api_apps id b => put_api_apps w st id b
  | DELETE_api_apps id => delete_api_apps w st id
  | GET_proxy_health url => get_proxy_health w st url
  | GET_login => (st, sendFile "public" "login.html")
  | POST_login b => post_login w st req b
  | GET_logout => get_logout w st req
  | GET_admin => (st, sendFile "views" "admin.html")
  | GET_api_config => (st, get_api_config)
  end.

(** The routes registered with [isAuthenticated] before their handler. *)
Definition guarded (r : Route) : bool :=
  match r with
  | POST_api_apps _ | PUT_api_apps _ _ | DELETE_api_apps _ | GET_admin => true
  | _ => false
  end.

(** One request through the application. *)
Definition handle (w : World) (st : State) (req : Request) : State * Response :=
  if guarded (route req) then
    match isAuthenticated (Some (load_session w st req).2) (accept req) with
    | next => handler w st req
    | ended res => (st, res)
    end
  else handler w st req.

(** A sequence of requests, each in its world, and the responses in order. *)
Fixpoint run (st : State) (trace : list (World * Request)) : State * list Response :=
  match trace with
  | [] => (st, [])
  | (w, req) :: rest =>
      let '(st1, res) := handle w st req in
      let '(st2, out) := run st1 rest in
      (st2, res :: out)
  end.

End Server.

(** ** An instance of the store's integer input *)

Definition digit (c : ascii) : option Z :=
  let n := Z.of_nat (nat_of_ascii c) in
  if (48 <=? n) && (n <=? 57) then Some (n - 48) else None.

Definition int4_range (v : Z) : Int4 :=
  if (- int4_max - 1 <=? v) && (v <=? int4_max) then int4 v else out_of_range.

(** White space as the store's input functions skip it. *)
Definition is_blank (c : ascii) : bool :=
  let n := nat_of_ascii c in
  (n =? 32)%nat || ((9 <=? n)%nat && (n <=? 13)%nat).

Fixpoint skip_blanks (s : string) : string :=
  match s with
  | String c rest => if is_blank c then skip_blanks rest else s
  | EmptyString => s
  end.

(** The digits at the head of a text, as a number, and what follows them;
    [None] when the text does not start with a digit. *)
Fixpoint leading_digits (acc : option Z) (s : string) : option Z * string :=
  match s with
  | String c rest =>
      match digit c with
      | Some d => leading_digits (Some (10 * default 0 acc + d)) rest
      | None => (acc, s)
      end
  | EmptyString => (acc, s)
  end.

(** What follows the sign: digits, read before anything else is looked at (a
    number that does not fit is out of range whatever follows it), then
    nothing but white space. *)
Definition unsigned_int4in (sign : Z) (s : string) : Int4 :=
  match leading_digits None s with
  | (None, _) => invalid_syntax
  | (Some v, rest) =>
      match int4_range (sign * v) with
      | int4 n =>
          match skip_blanks rest with
          | EmptyString => int4 n
          | _ => invalid_syntax
          end
      | other => other
      end
  end.

(** Decimal integers as the store's input function reads them: white space,
    an optional sign, digits, white space, within the 32-bit range. An
    instance of [int4in], the one the examples run with; a store may read
    more texts as integers than this one does. *)
Definition decimal_int4in (s : string) : Int4 :=
  match skip_blanks s with
  | EmptyString => invalid_syntax
  | String c rest =>
      if Ascii.eqb c "-" then unsigned_int4in (-1) rest
      else if Ascii.eqb c "+" then unsigned_int4in 1 rest
      else unsigned_int4in 1 (String c rest)
  end.

(** ** Notions the properties are stated with *)

(** The authentication state of a session. *)
Inductive AuthState := Unauthenticated | Authenticated.

Definition auth_of (s : Session) : AuthState :=
  if authenticated s then Authenticated else Unauthenticated.

(** The state of the session with id [sid] in the store; an id the store does
    not know has no authenticated session. *)
Definition auth_state (store : gmap string Session) (sid : string) : AuthState :=
  match store !! sid with
  | Some s => auth_of s
  | None => Unauthenticated
  end.

(** The state of the session of a request. *)
Definition request_auth (w : World) (st : State) (req : Request) : AuthState :=
  auth_of (load_session w st req).2.

(** The [Accept] header names the JSON media type. *)
Definition declares_json (accept : option string) : bool :=
  match accept with
  | Some a => includes "application/json" a
  | None => false
  end.

(** A configuration value or query parameter that is not there. *)
Definition absent (v : option string) : Prop := v = None.

(** A value that is not there or is the empty string. *)
Definition absent_or_empty (v : option string) : Prop :=
  v = None ∨ v = Some EmptyString.

(** The start-up property, read with "absent" as "not set". *)
Definition startup_as_stated : Prop :=
  ∀ env : Env,
    (absent (DATABASE_URL env) ∨ absent (SESSION_SECRET env) ∨
     absent (ADMIN_USERNAME env) ∨ absent (ADMIN_PASSWORD env) →
     ∃ code, startup env = exit code ∧ code ≠ 0) ∧
    (¬ absent (DATABASE_URL env) ∧ ¬ absent (SESSION_SECRET env) ∧
     ¬ absent (ADMIN_USERNAME env) ∧ ¬ absent (ADMIN_PASSWORD env) →
     startup env = proceeds).

(** The health proxy property, read with "absent" as "no [url] parameter":
    every [url] that is there is fetched, and the answer is the target's
    status or, when the fetch fails, 500 with the error's description. *)
Definition proxy_as_stated : Prop :=
  ∀ (int4in : string → Int4) (env : Env) (w : World) (st : State) (req : Request),
    (∀ url, route req = GET_proxy_health url → absent url →
       status (handle int4in env w st req).2 = 400) ∧
    (∀ u, route req = GET_proxy_health (Some u) →
       match fetch w u with
       | fetched code _ => (handle int4in env w st req).2 = sendStatus code
       | fetch_failed m =>
           (handle int4in env w st req).2 =
           status_json 500 (json_error_details "Health check başarısız." m)
       end).

(** The round trip of a create through the list, with the time clause as it
    is stated: the entry's [created_at], as the response carries it, is no
    earlier than the instant [t_call] of the call, for a statement that runs
    no earlier than the call is made. *)
Definition create_list_as_stated : Prop :=
  ∀ (int4in : string → Int4) (env : Env) (w1 w2 : World) (st : State)
    (req req' : Request) (b : AppBody) (T U : string) (t_call : Z),
    route req = POST_api_apps b →
    request_auth w1 st req = Authenticated →
    body_title b = Some T → body_url b = Some U →
    db_fault w1 = None → apps_id_seq (db st) ≤ int4_max →
    t_call ≤ ran_at w1 →
    route req' = GET_api_apps →
    db_fault w2 = None →
    ∃ r l,
      (handle int4in env w1 st req).2 = {| status := 200; body := json_app r |} ∧
      (handle int4in env w2 (handle int4in env w1 st req).1 req').2 =
        {| status := 200; body := json_apps l |} ∧
      r ∈ l ∧
      App.title r = T ∧ App.url r = U ∧
      App.image r = body_image b ∧ App.healthpath r = body_healthpath b ∧
      t_call ≤ read_timestamp w2 (App.created_at r) ∧
      StronglySorted (λ x y, App.created_at y ≤ App.created_at x) l.

(** The ids of the rows that the create requests of a trace returned. *)
Definition created_id (req : Request) (res : Response) : option Z :=
  match route req, body res with
  | POST_api_apps _, json_app r => Some (App.id r)
  | _, _ => None
  end.

Fixpoint created_ids (trace : list (World * Request)) (out : list Response) : list Z :=
  match trace, out with
  | (_, req) :: trace', res :: out' =>
      match created_id req res with
      | Some i => i :: created_ids trace' out'
      | None => created_ids trace' out'
      end
  | _, _ => []
  end.

(** The ids of the table are below the next value of the sequence and no two
    rows share one: what a sequence-fed primary key maintains. *)
Definition serial_key (d : Db) : Prop :=
  Forall (λ r, App.id r < apps_id_seq d) (apps d) ∧ NoDup (App.id <$> apps d).

(** ** Examples *)

Definition env0 : Env :=
  {| PORT := None; SESSION_SECRET := Some "s3cret"; DATABASE_URL := Some "postgres://db/apps";
     ADMIN_USERNAME := Some "admin"; ADMIN_PASSWORD := Some "hunter2";
     COMPANY_NAME := None; COMPANY_ICON_URL := None |}.

Definition net0 (u : string) : FetchResult :=
  if String.eqb u "http://up.example/health" then fetched 503 "maintenance"
  else fetch_failed "Only absolute URLs are supported".

Definition world (t : Z) : World :=
  {| db_fault := None; ran_at := t; db_zone := 0; node_zone := 0;
     uid := "sid-1"; fetch := net0 |}.

(** A world whose database session is on UTC and whose server process is
    eight hours east of it. *)
Definition world_east (t : Z) : World :=
  {| db_fault := None; ran_at := t; db_zone := 0; node_zone := 28800;
     uid := "sid-1"; fetch := net0 |}.

Definition st0 : State := {| db := fresh_db; sessions := ∅ |}.

Definition anonymous (r : Route) : Request :=
  {| route := r; cookie := None; accept := Some "application/json" |}.

Definition admin (r : Route) : Request :=
  {| route := r; cookie := Some "sid-1"; accept := Some "application/json" |}.

Definition browser (r : Route) : Request :=
  {| route := r; cookie := None; accept := Some "text/html,*/*;q=0.8" |}.

Definition wiki : AppBody :=
  {| body_title := Some "Wiki"; body_url := Some "https://wiki.example";
     body_image := None; body_healthpath := Some "https://wiki.example/health" |}.

Definition mail : AppBody :=
  {| body_title := Some "Mail"; body_url := Some "https://mail.example";
     body_image := Some "mail.png"; body_healthpath := None |}.

Definition good_login : LoginBody :=
  {| username := Some "admin"; password := Some "hunter2" |}.

Definition bad_login : LoginBody :=
  {| username := Some "admin"; password := Some "wrong" |}.

(** The state after the administrator logged in. *)
Definition st1 : State :=
  (handle decimal_int4in env0 (world 10) st0 (anonymous (POST_login good_login))).1.

(** The state after the administrator created two apps. *)
Definition st2 : State :=
  (run decimal_int4in env0 st1
     [(world 20, admin (POST_api_apps wiki)); (world 30, admin (POST_api_apps mail))]).1.

(** A world in which the database cannot be reached. *)
Definition world_down : World :=
  {| db_fault := Some "connect ECONNREFUSED"; ran_at := 40; db_zone := 0; node_zone := 0;
     uid := "sid-2"; fetch := net0 |}.

Definition wiki_row : App.t :=
  App.mk 1 "Wiki" "https://wiki.example" None (Some "https://wiki.example/health") 20.

Definition mail_row : App.t :=
  App.mk 2 "Mail" "https://mail.example" (Some "mail.png") None 30.

(** ** Notions of the further properties *)

(** The routes that write to the table. *)
Definition write_route (r : Route) : bool :=
  match r with
  | POST_api_apps _ | PUT_api_apps _ _ | DELETE_api_apps _ => true
  | _ => false
  end.

(** No session of the store is authenticated. *)
Definition no_authenticated (store : gmap string Session) : Prop :=
  ∀ sid s, store !! sid = Some s → authenticated s = false.

(** A login whose body carries the configured pair. *)
Definition matching_login (env : Env) (req : Request) : Prop :=
  ∃ b, route req = POST_login b ∧
       username b = ADMIN_USERNAME env ∧ password b = ADMIN_PASSWORD env.

(** An environment that names the company. *)
Definition env1 : Env :=
  {| PORT := Some "8080"; SESSION_SECRET := Some "s3cret";
     DATABASE_URL := Some "postgres://db/apps";
     ADMIN_USERNAME := Some "admin"; ADMIN_PASSWORD := Some "hunter2";
     COMPANY_NAME := Some "Acme"; COMPANY_ICON_URL := Some EmptyString |}.

(** * Properties *)

(** ** Start-up *)

Lemma truthy_false (v : option string) : truthy v = false ↔ absent_or_empty v.
Proof.
  unfold absent_or_empty. destruct v as [[|c s]|]; simpl; split; intros H; auto.
  - discriminate.
  - destruct H as [H|H]; discriminate.
Qed.

Lemma truthy_true (v : option string) : truthy v = true ↔ ¬ absent_or_empty v.
Proof.
  rewrite <- truthy_false. destruct (truthy v); split; congruence.
Qed.

(** C7, as stated: an environment whose four required values are all set, one
    of them to the empty string, is refused although nothing is absent. *)
Lemma startup_empty_value_refused : ¬ startup_as_stated.
Proof.
  intros H.
  destruct (H {| PORT := None; SESSION_SECRET := Some "s3cret";
                 DATABASE_URL := Some "postgres://db/apps";
                 ADMIN_USERNAME := Some "admin"; ADMIN_PASSWORD := Some EmptyString;
                 COMPANY_NAME := None; COMPANY_ICON_URL := None |}) as [_ H2].
  unfold absent in H2. simpl in H2.
  assert (E : startup {| PORT := None; SESSION_SECRET := Some "s3cret";
                 DATABASE_URL := Some "postgres://db/apps";
                 ADMIN_USERNAME := Some "admin"; ADMIN_PASSWORD := Some EmptyString;
                 COMPANY_NAME := None; COMPANY_ICON_URL := None |} = proceeds).
  { apply H2. repeat split; discriminate. }
  vm_compute in E. discriminate E.
Qed.

(** C7, amended: when one of the four required configuration values is absent
    or empty the process exits with code 1; when all four are there and not
    empty, start-up proceeds. *)
Theorem startup_check (env : Env) :
  (absent_or_empty (DATABASE_URL env) ∨ absent_or_empty (SESSION_SECRET env) ∨
   absent_or_empty (ADMIN_USERNAME env) ∨ absent_or_empty (ADMIN_PASSWORD env) →
   startup env = exit 1 ∧ 1 ≠ 0) ∧
  (¬ absent_or_empty (DATABASE_URL env) ∧ ¬ absent_or_empty (SESSION_SECRET env) ∧
   ¬ absent_or_empty (ADMIN_USERNAME env) ∧ ¬ absent_or_empty (ADMIN_PASSWORD env) →
   startup env = proceeds).
Proof.
  unfold startup. split.
  - rewrite <- !truthy_false. intros H. split; [|lia].
    destruct H as [H|[H|[H|H]]]; rewrite H; simpl;
      repeat match goal with |- context [negb ?b] => destruct b; simpl end; reflexivity.
  - rewrite <- !truthy_true. intros (H1 & H2 & H3 & H4).
    now rewrite H1, H2, H3, H4.
Qed.

Lemma startup_check_witness :
  startup env0 = proceeds ∧
  startup {| PORT := None; SESSION_SECRET := None; DATABASE_URL := Some "postgres://db/apps";
             ADMIN_USERNAME := Some "admin"; ADMIN_PASSWORD := Some "hunter2";
             COMPANY_NAME := None; COMPANY_ICON_URL := None |} = exit 1.
Proof.
  split.
  - apply (startup_check env0). unfold absent_or_empty. simpl.
    repeat split; intros [H|H]; discriminate H.
  - apply (startup_check {| PORT := None; SESSION_SECRET := None;
             DATABASE_URL := Some "postgres://db/apps";
             ADMIN_USERNAME := Some "admin"; ADMIN_PASSWORD := Some "hunter2";
             COMPANY_NAME := None; COMPANY_ICON_URL := None |}).
    right. left. left. reflexivity.
Defined.

(** ** The health proxy *)

(** C6, as stated: a request with [?url=] has the parameter, empty; nothing is
    fetched and the answer is 400, neither the target's status nor 500. *)
Lemma proxy_empty_url_not_fetched : ¬ proxy_as_stated.
Proof.
  intros H.
  destruct (H decimal_int4in env0 (world 0) st0
              (anonymous (GET_proxy_health (Some EmptyString)))) as [_ H2].
  specialize (H2 EmptyString eq_refl). vm_compute in H2. discriminate H2.
Qed.

(** C6, amended: when the [url] query parameter is absent or empty the
    response is 400; otherwise the proxy fetches that URL and answers with the
    target's status code and none of the target's body; when the fetch fails
    the response is 500 with a generic message and the error's description. *)
Theorem proxy_health (int4in : string → Int4) (env : Env) (w : World) (st : State)
    (req : Request) (url : option string) :
  route req = GET_proxy_health url →
  (absent_or_empty url →
     handle int4in env w st req =
     (st, status_json 400 (json_error "Health URL belirtilmedi."))) ∧
  (∀ u, url = Some u → ¬ absent_or_empty url →
     (∀ code target_body, fetch w u = fetched code target_body →
        handle int4in env w st req = (st, {| status := code; body := status_text |})) ∧
     (∀ m, fetch w u = fetch_failed m →
        handle int4in env w st req =
        (st, status_json 500 (json_error_details "Health check başarısız." m)))).
Proof.
  intros Hr. unfold handle, handler. rewrite Hr. simpl. split.
  - intros [-> | ->]; reflexivity.
  - intros u -> Hne. destruct u as [|c s].
    + exfalso. apply Hne. right. reflexivity.
    + simpl. split.
      * intros code tb ->. reflexivity.
      * intros m ->. reflexivity.
Qed.

Lemma proxy_health_witness :
  handle decimal_int4in env0 (world 0) st0 (anonymous (GET_proxy_health None)) =
    (st0, status_json 400 (json_error "Health URL belirtilmedi.")) ∧
  handle decimal_int4in env0 (world 0) st0
    (anonymous (GET_proxy_health (Some "http://up.example/health"))) =
    (st0, {| status := 503; body := status_text |}) ∧
  handle decimal_int4in env0 (world 0) st0
    (anonymous (GET_proxy_health (Some "up.example"))) =
    (st0, status_json 500
            (json_error_details "Health check başarısız." "Only absolute URLs are supported")).
Proof.
  split; [|split].
  - apply (proxy_health decimal_int4in env0 (world 0) st0
             (anonymous (GET_proxy_health None)) None eq_refl).
    left. reflexivity.
  - refine (proj1 (proj2 (proxy_health decimal_int4in env0 (world 0) st0
             (anonymous (GET_proxy_health (Some "http://up.example/health")))
             (Some "http://up.example/health") eq_refl) _ eq_refl _) 503 "maintenance" _).
    + intros [H|H]; discriminate H.
    + reflexivity.
  - refine (proj2 (proj2 (proxy_health decimal_int4in env0 (world 0) st0
             (anonymous (GET_proxy_health (Some "up.example")))
             (Some "up.example") eq_refl) _ eq_refl _) _ _).
    + intros [H|H]; discriminate H.
    + reflexivity.
Defined.

(** ** The gate and the session state machine *)

Section Sessions.
Variable int4in : string → Int4.
Variable env : Env.

(** The guarded routes are the three writes on apps and the admin page. *)
Lemma guarded_routes (r : Route) :
  guarded r = true ↔
  (∃ b, r = POST_api_apps b) ∨ (∃ id b, r = PUT_api_apps id b) ∨
  (∃ id, r = DELETE_api_apps id) ∨ r = GET_admin.
Proof.
  split.
  - destruct r; simpl; intros H; try discriminate H; eauto 6.
  - intros [[b ->]|[(id & b & ->)|[[id ->]| ->]]]; reflexivity.
Qed.

Lemma accept_test (a : option string) :
  truthy a && match a with Some s => includes "application/json" s | None => false end
  = declares_json a.
Proof. destruct a as [[|c s]|]; reflexivity. Qed.

Lemma isAuthenticated_cases (s : Session) (a : option string) :
  isAuthenticated (Some s) a =
  if authenticated s then next
  else if declares_json a
       then ended (status_json 401 (json_error "Yetkisiz erişim. Lütfen giriş yapın."))
       else ended (redirect "/login").
Proof. unfold isAuthenticated. now rewrite accept_test. Qed.

Lemma auth_of_true (s : Session) : auth_of s = Authenticated ↔ authenticated s = true.
Proof. unfold auth_of. destruct (authenticated s); split; congruence. Qed.

Lemma auth_of_false (s : Session) : auth_of s = Unauthenticated ↔ authenticated s = false.
Proof. unfold auth_of. destruct (authenticated s); split; congruence. Qed.

(** What a request does to the session store. *)
Lemma handle_sessions (w : World) (st : State) (req : Request) :
  sessions (handle int4in env w st req).1 =
  match route req with
  | POST_login b =>
      if bool_decide (username b = ADMIN_USERNAME env)
         && bool_decide (password b = ADMIN_PASSWORD env)
      then <[(load_session w st req).1 :=
               {| authenticated := true; user := username b |}]> (sessions st)
      else sessions st
  | GET_logout => delete (load_session w st req).1 (sessions st)
  | _ => sessions st
  end.
Proof.
  unfold handle, handler.
  destruct (route req) as [|b|id b|id|url| |b| | |] eqn:Hr; simpl;
    try rewrite isAuthenticated_cases;
    try (destruct (authenticated (load_session w st req).2); simpl;
         [|destruct (declares_json (accept req)); reflexivity]).
  - unfold get_api_apps. now destruct (select_apps w (db st)).
  - unfold post_api_apps. destruct (insert_app w (db st) b) as [d [e|rows]]; reflexivity.
  - unfold put_api_apps. destruct (update_app int4in w (db st) b id) as [d [e|rows]];
      [reflexivity|]. now destruct (bool_decide _).
  - unfold delete_api_apps. destruct (delete_app int4in w (db st) id) as [d [e|[|r rows]]];
      reflexivity.
  - unfold get_proxy_health. destruct url as [[|c s]|]; try reflexivity.
    now destruct (fetch w (String c s)).
  - reflexivity.
  - unfold post_login. destruct (load_session w st req) as [sid s]. simpl.
    now destruct (bool_decide _ && bool_decide _).
  - unfold get_logout. destruct (load_session w st req) as [sid s]. reflexivity.
  - reflexivity.
  - reflexivity.
Qed.

(** A request changes the state of no session but its own, and only by a
    matching login or a logout. *)
Lemma auth_state_change (w : World) (st : State) (req : Request) (sid : string) :
  auth_state (sessions (handle int4in env w st req).1) sid ≠ auth_state (sessions st) sid →
  sid = (load_session w st req).1 ∧
  ((∃ b, route req = POST_login b ∧
         username b = ADMIN_USERNAME env ∧ password b = ADMIN_PASSWORD env ∧
         auth_state (sessions st) sid = Unauthenticated ∧
         auth_state (sessions (handle int4in env w st req).1) sid = Authenticated)
   ∨ (route req = GET_logout ∧
      auth_state (sessions st) sid = Authenticated ∧
      auth_state (sessions (handle int4in env w st req).1) sid = Unauthenticated)).
Proof.
  unfold auth_state. rewrite handle_sessions.
  destruct (route req) as [| | | | | |b| | |] eqn:Hr; try congruence.
  - destruct (bool_decide (username b = _)) eqn:E1; simpl; [|congruence].
    destruct (bool_decide (password b = _)) eqn:E2; simpl; [|congruence].
    apply bool_decide_eq_true_1 in E1, E2.
    destruct (decide ((load_session w st req).1 = sid)) as [<-|Hne].
    + rewrite lookup_insert_eq. simpl. intros Hc. split; [reflexivity|].
      left. exists b. repeat split; try assumption.
      destruct (sessions st !! _) as [s|]; [|reflexivity].
      unfold auth_of in *. simpl in *. destruct (authenticated s); congruence.
    + rewrite lookup_insert_ne by assumption. congruence.
  - destruct (decide ((load_session w st req).1 = sid)) as [<-|Hne].
    + rewrite lookup_delete_eq. intros Hc. split; [reflexivity|].
      right. repeat split.
      destruct (sessions st !! _) as [s|]; [|congruence].
      unfold auth_of in *. simpl in *. destruct (authenticated s); congruence.
    + rewrite lookup_delete_ne by assumption. congruence.
Qed.

(** C1. On a guarded route (create, update, delete app, admin page): a request
    whose session is Authenticated gets the route's handler, unchanged; one
    whose session is not and whose Accept header names JSON gets 401 with a
    JSON error body; any other gets a redirect to the login entry point. The
    two refusals leave the state as it was. *)
Theorem auth_gate (w : World) (st : State) (req : Request) :
  guarded (route req) = true →
  (request_auth w st req = Authenticated → handle int4in env w st req = handler int4in env w st req) ∧
  (request_auth w st req = Unauthenticated → declares_json (accept req) = true →
     handle int4in env w st req =
     (st, {| status := 401; body := json_error "Yetkisiz erişim. Lütfen giriş yapın." |})) ∧
  (request_auth w st req = Unauthenticated → declares_json (accept req) = false →
     handle int4in env w st req = (st, {| status := 302; body := redirect_to "/login" |})).
Proof.
  intros Hg. unfold handle, request_auth. rewrite Hg, isAuthenticated_cases.
  repeat split.
  - intros H%auth_of_true. now rewrite H.
  - intros H%auth_of_false Hj. now rewrite H, Hj.
  - intros H%auth_of_false Hj. now rewrite H, Hj.
Qed.

(** C2. Login with the configured admin pair answers the success message and
    makes the request's session Authenticated with the username recorded; any
    other login answers 401 with an error message and changes nothing, so an
    Unauthenticated session stays so; logout answers the success message and
    removes the session from the store; and whenever a request changes the
    authentication state of some session, that session is the request's own
    and the request is a matching login (to Authenticated) or a logout (to
    Unauthenticated). *)
Theorem auth_transitions (w : World) (st : State) (req : Request) :
  (∀ b, route req = POST_login b →
     username b = ADMIN_USERNAME env → password b = ADMIN_PASSWORD env →
     (handle int4in env w st req).2 = {| status := 200; body := json_message "Giriş başarılı!" |} ∧
     sessions (handle int4in env w st req).1 !! (load_session w st req).1 =
       Some {| authenticated := true; user := username b |} ∧
     auth_state (sessions (handle int4in env w st req).1) (load_session w st req).1 = Authenticated) ∧
  (∀ b, route req = POST_login b →
     ¬ (username b = ADMIN_USERNAME env ∧ password b = ADMIN_PASSWORD env) →
     handle int4in env w st req =
       (st, {| status := 401; body := json_error "Geçersiz kimlik bilgileri." |}) ∧
     (request_auth w st req = Unauthenticated →
      request_auth w (handle int4in env w st req).1 req = Unauthenticated)) ∧
  (route req = GET_logout →
     (handle int4in env w st req).2 =
       {| status := 200; body := json_message "Başarıyla çıkış yapıldı." |} ∧
     sessions (handle int4in env w st req).1 !! (load_session w st req).1 = None ∧
     auth_state (sessions (handle int4in env w st req).1) (load_session w st req).1 = Unauthenticated) ∧
  (∀ sid,
     auth_state (sessions (handle int4in env w st req).1) sid ≠ auth_state (sessions st) sid →
     sid = (load_session w st req).1 ∧
     ((∃ b, route req = POST_login b ∧
            username b = ADMIN_USERNAME env ∧ password b = ADMIN_PASSWORD env ∧
            auth_state (sessions st) sid = Unauthenticated ∧
            auth_state (sessions (handle int4in env w st req).1) sid = Authenticated)
      ∨ (route req = GET_logout ∧
         auth_state (sessions st) sid = Authenticated ∧
         auth_state (sessions (handle int4in env w st req).1) sid = Unauthenticated))).
Proof.
  repeat split.
  - unfold handle, handler. rewrite H. simpl. unfold post_login.
    destruct (load_session w st req) as [sid s].
    now rewrite !bool_decide_eq_true_2.
  - rewrite handle_sessions, H, !bool_decide_eq_true_2 by assumption. simpl.
    apply lookup_insert_eq.
  - unfold auth_state.
    rewrite handle_sessions, H, !bool_decide_eq_true_2 by assumption. simpl.
    now rewrite lookup_insert_eq.
  - unfold handle, handler. rewrite H. simpl. unfold post_login.
    destruct (load_session w st req) as [sid s].
    destruct (bool_decide (username b = _)) eqn:E1; [|reflexivity].
    destruct (bool_decide (password b = _)) eqn:E2; [|reflexivity].
    apply bool_decide_eq_true_1 in E1, E2. tauto.
  - intros Hu.
    replace (handle int4in env w st req).1 with st; [assumption|].
    unfold handle, handler. rewrite H. simpl. unfold post_login.
    destruct (load_session w st req) as [sid s].
    destruct (bool_decide (username b = _)) eqn:E1; [|reflexivity].
    destruct (bool_decide (password b = _)) eqn:E2; [|reflexivity].
    apply bool_decide_eq_true_1 in E1, E2. tauto.
  - unfold handle, handler. rewrite H. simpl. unfold get_logout.
    now destruct (load_session w st req) as [sid s].
  - rewrite handle_sessions, H. apply lookup_delete_eq.
  - unfold auth_state. rewrite handle_sessions, H. now rewrite lookup_delete_eq.
  - now apply auth_state_change.
  - now apply auth_state_change.
Qed.

End Sessions.

(** ** The CRUD handlers *)

Global Instance newest_first_total : Total newest_first.
Proof. intros a b. unfold newest_first. lia. Qed.

Global Instance newest_first_trans : Transitive newest_first.
Proof. intros a b c. unfold newest_first. lia. Qed.

Lemma with_db_same (st : State) : with_db st (db st) = st.
Proof. now destruct st. Qed.

Lemma no_row_forallb (n : Z) (l : list App.t) :
  forallb (λ r, negb (has_id n r)) l = true ↔ ∀ r, r ∈ l → App.id r ≠ n.
Proof.
  rewrite forallb_forall. unfold has_id. split; intros H r Hr.
  - apply list_elem_of_In, H in Hr. apply negb_true_iff, bool_decide_eq_false in Hr. exact Hr.
  - apply negb_true_iff, bool_decide_eq_false, H, list_elem_of_In, Hr.
Qed.

Lemma filter_none (n : Z) (l : list App.t) :
  (∀ r, r ∈ l → App.id r ≠ n) →
  filter (λ r, has_id n r = true) l = [] ∧ filter (λ r, has_id n r = false) l = l.
Proof.
  induction l as [|a l IH]; intros H; [split; reflexivity|].
  assert (Ha : has_id n a = false).
  { apply bool_decide_eq_false, H. left. }
  destruct IH as [IH1 IH2]; [intros r Hr; apply H; now right|].
  rewrite !filter_cons. rewrite Ha.
  destruct (decide (false = true)) as [E|_]; [discriminate E|].
  destruct (decide (false = false)) as [_|E]; [|now contradiction E].
  now rewrite IH1, IH2.
Qed.

(** The rows a [WHERE id = n] selects, when there is one: the first of them is
    a row of the table with that id. *)
Lemma filter_some (n : Z) (l : list App.t) :
  (∃ r, r ∈ l ∧ App.id r = n) →
  ∃ r rest, filter (λ r, has_id n r = true) l = r :: rest ∧ r ∈ l ∧ App.id r = n.
Proof.
  intros (r & Hr & Hn).
  assert (Hf : r ∈ filter (λ r, has_id n r = true) l).
  { apply list_elem_of_filter. split; [|exact Hr]. now apply bool_decide_eq_true. }
  destruct (filter (λ r, has_id n r = true) l) as [|r0 rest] eqn:E.
  - inversion Hf.
  - exists r0, rest. split; [reflexivity|].
    assert (H0 : r0 ∈ filter (λ r, has_id n r = true) l) by (rewrite E; left).
    apply list_elem_of_filter in H0 as [H0 H1].
    split; [exact H1|]. now apply bool_decide_eq_true in H0.
Qed.

Lemma filter_deleted (n : Z) (l : list App.t) (r : App.t) :
  r ∈ filter (λ r, has_id n r = false) l → App.id r ≠ n.
Proof.
  intros [H _]%list_elem_of_filter. now apply bool_decide_eq_false in H.
Qed.

Section Crud.
Variable int4in : string → Int4.
Variable env : Env.

(** An authenticated request reaches the handler of its route. *)
Lemma handle_authenticated (w : World) (st : State) (req : Request) :
  request_auth w st req = Authenticated →
  handle int4in env w st req = handler int4in env w st req.
Proof.
  unfold request_auth, handle. intros H%auth_of_true.
  destruct (guarded (route req)); [|reflexivity].
  now rewrite isAuthenticated_cases, H.
Qed.

(** An authenticated session comes from the store, under the cookie's id: it
    is the same in every world and in every state with the same sessions. *)
Lemma request_auth_stable (w w' : World) (st st' : State) (req : Request) :
  sessions st' = sessions st →
  request_auth w st req = Authenticated →
  request_auth w' st' req = Authenticated.
Proof.
  unfold request_auth, load_session. intros ->.
  destruct (cookie req) as [sid|]; [|discriminate].
  destruct (sessions st !! sid); [trivial|discriminate].
Qed.

(** C4. An authenticated update whose statement the store accepts answers 200
    with the updated row when a row has the id, and 404 with an error body
    when none has; when the store fails (it cannot answer, or it refuses the
    statement) the answer is 500 with the store's message. *)
Theorem update_responses (w : World) (st : State) (req : Request)
    (id : string) (b : AppBody) :
  route req = PUT_api_apps id b →
  request_auth w st req = Authenticated →
  (∀ n t u,
     db_fault w = None → int4in id = int4 n →
     body_title b = Some t → body_url b = Some u →
     (∃ r, r ∈ apps (db st) ∧ App.id r = n) →
     ∃ r, r ∈ apps (db st) ∧ App.id r = n ∧
          (handle int4in env w st req).2 =
            {| status := 200;
               body := json_app (App.mk n t u (body_image b) (body_healthpath b)
                                        (App.created_at r)) |} ∧
          App.mk n t u (body_image b) (body_healthpath b) (App.created_at r)
            ∈ apps (db (handle int4in env w st req).1)) ∧
  (∀ n,
     db_fault w = None → int4in id = int4 n →
     (∀ r, r ∈ apps (db st) → App.id r ≠ n) →
     handle int4in env w st req =
       (st, {| status := 404; body := json_error "Uygulama bulunamadı." |})) ∧
  (∀ e,
     (update_app int4in w (db st) b id).2 = rejected e →
     (handle int4in env w st req).2 =
       {| status := 500; body := json_error (pg_message e) |}) ∧
  (∀ m,
     db_fault w = Some m →
     handle int4in env w st req = (st, {| status := 500; body := json_error m |})).
Proof.
  intros Hr Ha. rewrite (handle_authenticated _ _ _ Ha).
  unfold handler. rewrite Hr. unfold put_api_apps.
  split; [|split; [|split]].
  - intros n t u Hf Hn Ht Hu Hex.
    unfold update_app. rewrite Hf, Hn, Ht, Hu.
    destruct (forallb _ (apps (db st))) eqn:Hall.
    { destruct Hex as (r & Hin & Hid).
      now apply (proj1 (no_row_forallb n _) Hall) in Hin. }
    destruct (filter_some n (apps (db st)) Hex) as (r & rest & Hfil & Hin & Hid).
    exists r. rewrite Hfil. simpl. unfold set_fields. rewrite Hid.
    repeat split; try assumption.
    apply list_elem_of_fmap. exists r. split; [|exact Hin].
    unfold has_id. rewrite bool_decide_eq_true_2 by exact Hid. now rewrite Hid.
  - intros n Hf Hn Hno.
    unfold update_app. rewrite Hf, Hn.
    rewrite (proj2 (no_row_forallb n _) Hno). simpl. now rewrite with_db_same.
  - intros e He. destruct (update_app int4in w (db st) b id) as [d q].
    simpl in He. now rewrite He.
  - intros m Hf. unfold update_app. rewrite Hf. simpl. now rewrite with_db_same.
Qed.

(** C5. Delete is not idempotent: an authenticated delete of an id no row has
    answers 404; of an id a row has, it answers 200 with the message and the
    removed row, which is no longer in the table, and the same delete sent
    again answers 404. *)
Theorem delete_not_idempotent (w1 w2 : World) (st : State) (req : Request)
    (id : string) (n : Z) :
  route req = DELETE_api_apps id →
  request_auth w1 st req = Authenticated →
  int4in id = int4 n →
  db_fault w1 = None → db_fault w2 = None →
  ((∀ r, r ∈ apps (db st) → App.id r ≠ n) →
     handle int4in env w1 st req =
       (st, {| status := 404; body := json_error "Uygulama bulunamadı." |})) ∧
  ((∃ r, r ∈ apps (db st) ∧ App.id r = n) →
     (∃ r, r ∈ apps (db st) ∧ App.id r = n ∧
           (handle int4in env w1 st req).2 =
             {| status := 200; body := json_removed "Uygulama silindi." r |} ∧
           r ∉ apps (db (handle int4in env w1 st req).1)) ∧
     (handle int4in env w2 (handle int4in env w1 st req).1 req).2 =
       {| status := 404; body := json_error "Uygulama bulunamadı." |}).
Proof.
  intros Hr Ha Hn Hf1 Hf2.
  assert (Ha2 : request_auth w2 (handle int4in env w1 st req).1 req = Authenticated).
  { apply (request_auth_stable w1 w2 st); [|exact Ha].
    now rewrite handle_sessions, Hr. }
  rewrite (handle_authenticated _ _ _ Ha2).
  rewrite (handle_authenticated _ _ _ Ha).
  unfold handler. rewrite Hr. unfold delete_api_apps, delete_app.
  rewrite Hf1, Hf2, Hn. split.
  - intros Hno. destruct (filter_none n _ Hno) as [E1 E2].
    rewrite E1, E2. destruct st as [[l s] ss]. reflexivity.
  - intros Hex.
    destruct (filter_some n (apps (db st)) Hex) as (r & rest & Hfil & Hin & Hid).
    rewrite Hfil. simpl.
    assert (Hgone : ∀ r', r' ∈ filter (λ r, has_id n r = false) (apps (db st)) →
                          App.id r' ≠ n) by (intros r'; apply filter_deleted).
    split.
    + exists r. repeat split; try assumption.
      intros Hc. now apply Hgone in Hc.
    + destruct (filter_none n _ Hgone) as [E1 _]. now rewrite E1.
Qed.

(** C10. An authenticated update or delete whose path id is not an integer for
    the store answers 500 with the store's message and changes nothing: the
    message of the store's syntax error or of its range error, as the store
    reads the text, when the store is reachable. The answer is 404 only when
    the id is an integer for the store and no row has it. *)
Theorem malformed_id (w : World) (st : State) (req : Request) (id : string) :
  request_auth w st req = Authenticated →
  (∃ b, route req = PUT_api_apps id b) ∨ route req = DELETE_api_apps id →
  ((∀ n, int4in id ≠ int4 n) →
     ∃ e, handle int4in env w st req =
            (st, {| status := 500; body := json_error (pg_message e) |}) ∧
          (db_fault w = None → int4in id = invalid_syntax →
             e = invalid_text_representation id) ∧
          (db_fault w = None → int4in id = out_of_range →
             e = numeric_value_out_of_range id) ∧
          (∀ m, db_fault w = Some m → e = database_error m)) ∧
  (status (handle int4in env w st req).2 = 404 →
     ∃ n, int4in id = int4 n ∧ db_fault w = None ∧
          ∀ r, r ∈ apps (db st) → App.id r ≠ n).
Proof.
  intros Ha Hroute. rewrite (handle_authenticated _ _ _ Ha). unfold handler.
  assert (Hbad : (∀ n, int4in id ≠ int4 n) →
            ∃ e, (match db_fault w with
                  | Some m => rejected (database_error m)
                  | None =>
                      match int4in id with
                      | int4 n => resolved []
                      | out_of_range => rejected (numeric_value_out_of_range id)
                      | invalid_syntax => rejected (invalid_text_representation id)
                      end
                  end) = rejected e ∧
                 (db_fault w = None → int4in id = invalid_syntax →
                    e = invalid_text_representation id) ∧
                 (db_fault w = None → int4in id = out_of_range →
                    e = numeric_value_out_of_range id) ∧
                 (∀ m, db_fault w = Some m → e = database_error m)).
  { intros Hn. destruct (db_fault w) as [m|].
    - exists (database_error m). repeat split; try discriminate. now intros m' [= <-].
    - destruct (int4in id) as [n| |].
      + now destruct (Hn n).
      + exists (numeric_value_out_of_range id). repeat split; discriminate.
      + exists (invalid_text_representation id). repeat split; discriminate. }
  destruct Hroute as [[b Hr]|Hr]; rewrite Hr.
  - unfold put_api_apps, update_app. split.
    + intros Hn. destruct (Hbad Hn) as (e & He & H1 & H2 & H3). exists e.
      split; [|auto]. revert He.
      destruct (db_fault w) as [m|]; [intros [= <-]; now rewrite with_db_same|].
      destruct (int4in id) as [n| |]; try discriminate;
        intros [= <-]; now rewrite with_db_same.
    + destruct (db_fault w) as [m|]; [discriminate|].
      destruct (int4in id) as [n| |]; [|discriminate|discriminate].
      destruct (forallb _ (apps (db st))) eqn:Hall.
      * intros _. exists n. repeat split. now apply no_row_forallb.
      * destruct (body_title b); [|discriminate].
        destruct (body_url b); [|discriminate].
        destruct (filter_some n (apps (db st))) as (r & rest & Hfil & _).
        { apply not_true_iff_false in Hall. rewrite no_row_forallb in Hall.
          destruct (decide (Exists (λ r, App.id r = n) (apps (db st)))) as [He|He].
          - apply Exists_exists in He. exact He.
          - exfalso. apply Hall. intros r Hin Hid. apply He, Exists_exists. eauto. }
        rewrite Hfil. discriminate.
  - unfold delete_api_apps, delete_app. split.
    + intros Hn. destruct (Hbad Hn) as (e & He & H1 & H2 & H3). exists e.
      split; [|auto]. revert He.
      destruct (db_fault w) as [m|]; [intros [= <-]; now rewrite with_db_same|].
      destruct (int4in id) as [n| |]; try discriminate;
        intros [= <-]; now rewrite with_db_same.
    + destruct (db_fault w) as [m|]; [discriminate|].
      destruct (int4in id) as [n| |]; [|discriminate|discriminate].
      destruct (filter (λ r, has_id n r = true) (apps (db st))) as [|r rest] eqn:Hfil;
        [|discriminate].
      intros _. exists n. repeat split. intros r Hin Hid.
      assert (Hf : r ∈ filter (λ r, has_id n r = true) (apps (db st))).
      { apply list_elem_of_filter. split; [|exact Hin]. now apply bool_decide_eq_true. }
      rewrite Hfil in Hf. inversion Hf.
Qed.

End Crud.

(** ** What the statements do to the table *)

Lemma ids_filter (P : App.t → Prop) `{∀ r, Decision (P r)} (l : list App.t) :
  NoDup (App.id <$> l) → NoDup (App.id <$> filter P l).
Proof.
  induction l as [|a l IH]; [trivial|].
  rewrite fmap_cons, filter_cons. intros [Ha Hl]%NoDup_cons.
  destruct (decide (P a)); [|now apply IH].
  rewrite fmap_cons. apply NoDup_cons. split; [|now apply IH].
  intros (r & Hid & [_ Hr]%list_elem_of_filter)%list_elem_of_fmap.
  apply Ha, list_elem_of_fmap. eauto.
Qed.

Lemma ids_update (n : Z) (f : App.t → App.t) (l : list App.t) :
  (∀ r, App.id (f r) = App.id r) →
  App.id <$> map (λ r, if has_id n r then f r else r) l = App.id <$> l.
Proof.
  intros Hf. induction l as [|a l IH]; [reflexivity|].
  cbn [map]. rewrite !fmap_cons. f_equal; [|exact IH].
  destruct (has_id n a); [apply Hf|reflexivity].
Qed.

Lemma unique_by_id (l : list App.t) (r r' : App.t) :
  NoDup (App.id <$> l) → r ∈ l → r' ∈ l → App.id r' = App.id r → r' = r.
Proof.
  induction l as [|a l IH]; [inversion 2|].
  rewrite fmap_cons. intros [Ha Hl]%NoDup_cons Hr Hr' Hid.
  apply elem_of_cons in Hr as [->|Hr]; apply elem_of_cons in Hr' as [->|Hr'].
  - reflexivity.
  - exfalso. apply Ha, list_elem_of_fmap. eauto.
  - exfalso. apply Ha, list_elem_of_fmap. eauto.
  - now apply IH.
Qed.

Lemma insert_app_serial (w : World) (d : Db) (b : AppBody) :
  serial_key d →
  serial_key (insert_app w d b).1 ∧
  apps_id_seq d ≤ apps_id_seq (insert_app w d b).1 ∧
  ∀ rows, (insert_app w d b).2 = resolved rows →
    ∃ r, rows = [r] ∧ App.id r = apps_id_seq d ∧
         apps_id_seq d < apps_id_seq (insert_app w d b).1 ∧
         r ∈ apps (insert_app w d b).1.
Proof.
  intros [Hlt Hnd]. unfold insert_app.
  destruct (db_fault w); [repeat split; simpl; try assumption; try lia; discriminate|].
  destruct (decide _); [repeat split; simpl; try assumption; try lia; discriminate|].
  assert (Hlt' : Forall (λ r, App.id r < apps_id_seq d + 1) (apps d)).
  { eapply Forall_impl; [exact Hlt|]. simpl. intros; lia. }
  destruct (body_title b) as [t|];
    [|repeat split; simpl; try assumption; try lia; discriminate].
  destruct (body_url b) as [u|];
    [|repeat split; simpl; try assumption; try lia; discriminate].
  cbn [fst snd apps apps_id_seq]. split; [split|split; [lia|]].
  - cbn [apps apps_id_seq]. apply Forall_app. split; [exact Hlt'|]. constructor; [simpl; lia|constructor].
  - cbn [apps]. rewrite fmap_app. apply NoDup_app.
    repeat split; [exact Hnd| |apply NoDup_singleton].
    intros i (r & -> & Hr)%list_elem_of_fmap Hi. simpl in Hi.
    apply list_elem_of_singleton in Hi.
    rewrite Forall_forall in Hlt. apply Hlt in Hr. lia.
  - intros rows [= <-]. eexists. repeat split; simpl; [lia|].
    apply elem_of_app. right. apply list_elem_of_singleton. reflexivity.
Qed.

Section Table.
Variable int4in : string → Int4.
Variable env : Env.

Lemma update_app_serial (w : World) (d : Db) (b : AppBody) (id : string) :
  App.id <$> apps (update_app int4in w d b id).1 = App.id <$> apps d ∧
  apps_id_seq (update_app int4in w d b id).1 = apps_id_seq d.
Proof.
  unfold update_app.
  destruct (db_fault w); [now split|].
  destruct (int4in id) as [n| |]; [|now split|now split].
  destruct (forallb _ _); [now split|].
  destruct (body_title b); [|now split].
  destruct (body_url b); [|now split].
  simpl. split; [|reflexivity]. now apply ids_update.
Qed.

Lemma delete_app_serial (w : World) (d : Db) (id : string) :
  serial_key d →
  serial_key (delete_app int4in w d id).1 ∧
  apps_id_seq (delete_app int4in w d id).1 = apps_id_seq d.
Proof.
  intros [Hlt Hnd]. unfold delete_app.
  destruct (db_fault w); [now repeat split|].
  destruct (int4in id) as [n| |]; [|now repeat split|now repeat split].
  simpl. repeat split.
  - rewrite Forall_forall in Hlt. apply Forall_forall.
    intros r [_ Hr]%list_elem_of_filter. now apply Hlt.
  - now apply ids_filter.
Qed.

(** A request reaches the handler of its route, or the gate ends it with a
    response that carries no row and the state is as it was. *)
Lemma handle_cases (w : World) (st : State) (req : Request) :
  handle int4in env w st req = handler int4in env w st req ∨
  ∃ res, handle int4in env w st req = (st, res) ∧ ∀ r, body res ≠ json_app r.
Proof.
  unfold handle. destruct (guarded (route req)); [|now left].
  rewrite isAuthenticated_cases.
  destruct (authenticated _); [now left|].
  right. destruct (declares_json _); eexists; (split; [reflexivity|discriminate]).
Qed.

Lemma post_api_apps_db (w : World) (st : State) (b : AppBody) :
  db (post_api_apps w st b).1 = (insert_app w (db st) b).1.
Proof. unfold post_api_apps. now destruct (insert_app w (db st) b) as [d [e|rows]]. Qed.

Lemma put_api_apps_db (w : World) (st : State) (id : string) (b : AppBody) :
  db (put_api_apps int4in w st id b).1 = (update_app int4in w (db st) b id).1.
Proof.
  unfold put_api_apps. destruct (update_app int4in w (db st) b id) as [d [e|rows]];
    [reflexivity|]. now destruct (bool_decide _).
Qed.

Lemma delete_api_apps_db (w : World) (st : State) (id : string) :
  db (delete_api_apps int4in w st id).1 = (delete_app int4in w (db st) id).1.
Proof.
  unfold delete_api_apps.
  now destruct (delete_app int4in w (db st) id) as [d [e|[|r rows]]].
Qed.

(** The database after the handler of a route. *)
Lemma handler_db (w : World) (st : State) (req : Request) :
  db (handler int4in env w st req).1 =
  match route req with
  | POST_api_apps b => (insert_app w (db st) b).1
  | PUT_api_apps id b => (update_app int4in w (db st) b id).1
  | DELETE_api_apps id => (delete_app int4in w (db st) id).1
  | _ => db st
  end.
Proof.
  unfold handler. destruct (route req) as [|b|id b|id|url| |b| | |]; try reflexivity.
  - unfold get_api_apps. now destruct (select_apps w (db st)).
  - apply post_api_apps_db.
  - apply put_api_apps_db.
  - apply delete_api_apps_db.
  - unfold get_proxy_health. destruct url as [[|c s]|]; try reflexivity.
    now destruct (fetch w (String c s)).
  - unfold post_login. destruct (load_session w st req) as [sid s].
    now destruct (_ && _).
  - unfold get_logout. now destruct (load_session w st req).
Qed.

Lemma serial_key_ids (d d' : Db) :
  App.id <$> apps d' = App.id <$> apps d → apps_id_seq d' = apps_id_seq d →
  serial_key d → serial_key d'.
Proof.
  intros Hids Hseq [Hlt Hnd]. unfold serial_key. rewrite Hids, Hseq.
  split; [|exact Hnd].
  apply (Forall_fmap App.id (λ i, i < apps_id_seq d)).
  rewrite Hids. now apply Forall_fmap.
Qed.

(** Every request keeps the key of the table and never moves the sequence
    back; a create that returns a row returns it with the value the sequence
    had, and moves the sequence past it. *)
Lemma handle_serial (w : World) (st : State) (req : Request) :
  serial_key (db st) →
  serial_key (db (handle int4in env w st req).1) ∧
  apps_id_seq (db st) ≤ apps_id_seq (db (handle int4in env w st req).1) ∧
  ∀ i, created_id req (handle int4in env w st req).2 = Some i →
       i = apps_id_seq (db st) ∧ i < apps_id_seq (db (handle int4in env w st req).1) ∧
       ∃ r, (handle int4in env w st req).2 = json (json_app r) ∧ App.id r = i ∧
            r ∈ apps (db (handle int4in env w st req).1).
Proof.
  intros Hk. destruct (handle_cases w st req) as [E|(res & E & Hres)]; rewrite E.
  - rewrite handler_db. unfold created_id, handler.
    destruct (route req) as [|b|id b|id|url| |b| | |] eqn:Hr;
      try (split; [exact Hk|split; [lia|discriminate]]).
    + destruct (insert_app_serial w (db st) b Hk) as (Hk' & Hle & Hrows).
      split; [exact Hk'|]. split; [exact Hle|].
      intros i. unfold post_api_apps.
      destruct (insert_app w (db st) b) as [d [e|rows]] eqn:Hi; [discriminate|].
      destruct (Hrows rows eq_refl) as (r & -> & Hid & Hlt & Hin).
      simpl in *. intros [= <-]. split; [exact Hid|]. split; [lia|].
      exists r. repeat split; assumption.
    + destruct (update_app_serial w (db st) b id) as [Hids Hseq].
      split; [now apply (serial_key_ids (db st))|]. split; [lia|discriminate].
    + destruct (delete_app_serial w (db st) id Hk) as [Hk' Hseq].
      split; [exact Hk'|]. split; [lia|discriminate].
  - simpl. split; [exact Hk|]. split; [lia|].
    intros i. unfold created_id. destruct (route req); try discriminate.
    destruct (body res) eqn:Hb; try discriminate. now destruct (Hres row).
Qed.

Lemma run_cons (st : State) (w : World) (req : Request) (rest : list (World * Request)) :
  run int4in env st ((w, req) :: rest) =
  ((run int4in env (handle int4in env w st req).1 rest).1,
   (handle int4in env w st req).2 :: (run int4in env (handle int4in env w st req).1 rest).2).
Proof.
  cbn [run]. destruct (handle int4in env w st req) as [s1 res].
  cbn [fst snd]. now destruct (run int4in env s1 rest).
Qed.

(** Along a trace the key is kept, and the ids the creates returned lie
    between the first and the last value of the sequence, in increasing
    order. *)
Lemma run_serial (trace : list (World * Request)) (st : State) :
  serial_key (db st) →
  serial_key (db (run int4in env st trace).1) ∧
  apps_id_seq (db st) ≤ apps_id_seq (db (run int4in env st trace).1) ∧
  Forall (λ i, apps_id_seq (db st) ≤ i < apps_id_seq (db (run int4in env st trace).1))
         (created_ids trace (run int4in env st trace).2) ∧
  StronglySorted Z.lt (created_ids trace (run int4in env st trace).2).
Proof.
  revert st. induction trace as [|[w req] rest IH]; intros st Hk.
  - simpl. split; [exact Hk|]. split; [lia|]. split; constructor.
  - rewrite run_cons. simpl fst. simpl snd.
    destruct (handle_serial w st req Hk) as (Hk1 & Hle1 & Hid).
    destruct (IH _ Hk1) as (Hk2 & Hle2 & Hall & Hsort).
    split; [exact Hk2|]. split; [lia|].
    cbn [created_ids].
    destruct (created_id req (handle int4in env w st req).2) as [i|] eqn:Hc.
    + destruct (Hid i eq_refl) as (-> & Hlt & _).
      split.
      * constructor; [lia|]. eapply Forall_impl; [exact Hall|]. simpl. intros; lia.
      * constructor; [exact Hsort|]. eapply Forall_impl; [exact Hall|]. simpl. intros; lia.
    + split; [|exact Hsort]. eapply Forall_impl; [exact Hall|]. simpl. intros; lia.
Qed.

Lemma fresh_serial : serial_key fresh_db.
Proof. split; simpl; constructor. Qed.

(** C9. From a freshly created table, after any sequence of requests: a create
    that returns a row returns one whose id is strictly greater than the id of
    every row a create returned before, and that is the only row of the table
    with this id; no two rows of the table share an id. *)
Theorem serial_ids (pre : list (World * Request)) (w : World) (st : State)
    (req : Request) (b : AppBody) (r : App.t) :
  db st = fresh_db →
  route req = POST_api_apps b →
  body (handle int4in env w (run int4in env st pre).1 req).2 = json_app r →
  Forall (λ i, i < App.id r) (created_ids pre (run int4in env st pre).2) ∧
  StronglySorted Z.lt (created_ids pre (run int4in env st pre).2 ++ [App.id r]) ∧
  r ∈ apps (db (handle int4in env w (run int4in env st pre).1 req).1) ∧
  (∀ r', r' ∈ apps (db (handle int4in env w (run int4in env st pre).1 req).1) →
         App.id r' = App.id r → r' = r) ∧
  NoDup (App.id <$> apps (db (handle int4in env w (run int4in env st pre).1 req).1)).
Proof.
  intros Hfresh Hr Hbody.
  assert (Hk : serial_key (db st)) by (rewrite Hfresh; apply fresh_serial).
  destruct (run_serial pre st Hk) as (Hk1 & _ & Hall & Hsort).
  destruct (handle_serial w (run int4in env st pre).1 req Hk1) as ([Hlt Hnd] & _ & Hid).
  destruct (Hid (App.id r)) as (Hi & _ & r0 & Hres & _ & Hin).
  { unfold created_id. now rewrite Hr, Hbody. }
  assert (r0 = r) as ->.
  { rewrite Hres in Hbody. simpl in Hbody. congruence. }
  assert (Hbelow : Forall (λ i, i < App.id r) (created_ids pre (run int4in env st pre).2)).
  { eapply Forall_impl; [exact Hall|]. simpl. intros; lia. }
  split; [exact Hbelow|]. split; [|split; [exact Hin|split; [|exact Hnd]]].
  - apply StronglySorted_app. repeat split; [|exact Hsort|repeat constructor].
    intros x1 x2 H1 H2. apply list_elem_of_singleton in H2 as ->.
    rewrite Forall_forall in Hbelow. now apply Hbelow.
  - intros r' Hr' Hid'. now apply (unique_by_id _ r r' Hnd).
Qed.

End Table.

(** ** Update and create, row by row *)

Lemma Forall2_map_each {A : Type} (P : A → A → Prop) (f : A → A) (l : list A) :
  (∀ x, P x (f x)) → Forall2 P l (map f l).
Proof. intros H. induction l; constructor; auto. Qed.

Section Rows.
Variable int4in : string → Int4.
Variable env : Env.

(** C8. An update leaves the table row for row with the same [id] and
    [created_at]: every row is either untouched or has its [title], [url],
    [image] and [healthpath] set to the values of the body; the sequence is
    not moved, and the row an update returns has the [id] and [created_at] of
    a row the table had. *)
Theorem update_frame (w : World) (st : State) (req : Request) (id : string) (b : AppBody) :
  route req = PUT_api_apps id b →
  Forall2 (λ r r',
             App.id r' = App.id r ∧ App.created_at r' = App.created_at r ∧
             (r' = r ∨
              (body_title b = Some (App.title r') ∧ body_url b = Some (App.url r') ∧
               App.image r' = body_image b ∧ App.healthpath r' = body_healthpath b)))
          (apps (db st)) (apps (db (handle int4in env w st req).1)) ∧
  apps_id_seq (db (handle int4in env w st req).1) = apps_id_seq (db st) ∧
  (∀ r', body (handle int4in env w st req).2 = json_app r' →
         ∃ r, r ∈ apps (db st) ∧
              App.id r' = App.id r ∧ App.created_at r' = App.created_at r).
Proof.
  intros Hr.
  assert (Hsame : ∀ l : list App.t,
            Forall2 (λ r r',
              App.id r' = App.id r ∧ App.created_at r' = App.created_at r ∧
              (r' = r ∨
               (body_title b = Some (App.title r') ∧ body_url b = Some (App.url r') ∧
                App.image r' = body_image b ∧ App.healthpath r' = body_healthpath b)))
            l l).
  { intros l. apply Forall_Forall2_diag, Forall_forall. intros r _. auto. }
  destruct (handle_cases int4in env w st req) as [E|(res & E & Hres)]; rewrite E.
  2:{ simpl. split; [apply Hsame|]. split; [reflexivity|].
      intros r' Hb. now destruct (Hres r'). }
  unfold handler. rewrite Hr. unfold put_api_apps, update_app.
  destruct (db_fault w); [simpl; split; [apply Hsame|split; [reflexivity|discriminate]]|].
  destruct (int4in id) as [n| |];
    [|simpl; split; [apply Hsame|split; [reflexivity|discriminate]]
     |simpl; split; [apply Hsame|split; [reflexivity|discriminate]]].
  destruct (forallb _ _); [simpl; split; [apply Hsame|split; [reflexivity|discriminate]]|].
  destruct (body_title b) as [t|] eqn:Ht;
    [|simpl; split; [apply Hsame|split; [reflexivity|discriminate]]].
  destruct (body_url b) as [u|] eqn:Hu;
    [|simpl; split; [apply Hsame|split; [reflexivity|discriminate]]].
  destruct (filter (λ r, has_id n r = true) (apps (db st))) as [|r0 rest] eqn:Hfil.
  - simpl. split; [|split; [reflexivity|discriminate]].
    apply Forall2_map_each. intros r. destruct (has_id n r); simpl; auto 10.
  - assert (H0 : r0 ∈ apps (db st)).
    { assert (H0 : r0 ∈ filter (λ r, has_id n r = true) (apps (db st)))
        by (rewrite Hfil; left).
      now apply list_elem_of_filter in H0 as [_ H0]. }
    simpl. split; [|split; [reflexivity|]].
    + apply Forall2_map_each. intros r. destruct (has_id n r); simpl; auto 10.
    + intros r' [= <-]. exists r0. now repeat split.
Qed.

(** The list route is open: the request goes to its handler. *)
Lemma handle_list (w : World) (st : State) (req : Request) :
  route req = GET_api_apps →
  handle int4in env w st req = get_api_apps w st.
Proof. intros Hr. unfold handle, handler. now rewrite Hr. Qed.

(** C3, as stated: with the database session on UTC and the server process
    eight hours east, the row created at instant 100000 is listed with a
    [created_at] of 71200, eight hours before the call. *)
Lemma created_at_before_call : ¬ create_list_as_stated.
Proof.
  intros H.
  specialize (H decimal_int4in env0 (world_east 100000) (world_east 100010) st1
                (admin (POST_api_apps wiki)) (anonymous GET_api_apps) wiki
                "Wiki" "https://wiki.example" 100000
                eq_refl eq_refl eq_refl eq_refl eq_refl).
  assert (H1 : apps_id_seq (db st1) ≤ int4_max) by (vm_compute; discriminate).
  assert (H2 : 100000 ≤ ran_at (world_east 100000)) by (vm_compute; discriminate).
  destruct (H H1 H2 eq_refl eq_refl) as (r & l & E & _ & _ & _ & _ & _ & _ & Ht & _).
  vm_compute in E. injection E as <-. vm_compute in Ht. now apply Ht.
Qed.

(** C3, amended. An authenticated create with title [T], url [U], image [I]
    and health path [H] that the store accepts returns a row, and a list that
    follows it at once answers 200 with an array that holds this row with
    exactly those four values; the array is the table ordered by [created_at],
    newest first. The [created_at] of the entry is the wall clock of the
    database session at the insert, read as a wall clock of the server
    process: the instant of the insert moved by the difference of the two
    zones. It is no earlier than the instant [t_call] of the call when the two
    zones have the same offset and the statement runs no earlier than the
    call is made. *)
Theorem create_then_list (w1 w2 : World) (st : State) (req req' : Request)
    (b : AppBody) (T U : string) (t_call : Z) :
  route req = POST_api_apps b →
  request_auth w1 st req = Authenticated →
  body_title b = Some T → body_url b = Some U →
  db_fault w1 = None → apps_id_seq (db st) ≤ int4_max →
  t_call ≤ ran_at w1 →
  route req' = GET_api_apps →
  db_fault w2 = None →
  ∃ r l,
    (handle int4in env w1 st req).2 = {| status := 200; body := json_app r |} ∧
    (handle int4in env w2 (handle int4in env w1 st req).1 req').2 =
      {| status := 200; body := json_apps l |} ∧
    r ∈ l ∧
    App.title r = T ∧ App.url r = U ∧
    App.image r = body_image b ∧ App.healthpath r = body_healthpath b ∧
    read_timestamp w2 (App.created_at r) = ran_at w1 + (db_zone w1 - node_zone w2) ∧
    (db_zone w1 = node_zone w2 → t_call ≤ read_timestamp w2 (App.created_at r)) ∧
    StronglySorted (λ x y, App.created_at y ≤ App.created_at x) l ∧
    l ≡ₚ apps (db st) ++ [r].
Proof.
  intros Hr Ha Ht Hu Hf1 Hseq Htime Hr' Hf2.
  rewrite (handle_list _ _ _ Hr').
  rewrite (handle_authenticated _ _ _ _ _ Ha).
  unfold handler. rewrite Hr. unfold post_api_apps, insert_app.
  rewrite Hf1, Ht, Hu.
  destruct (decide (int4_max < apps_id_seq (db st))) as [Hc|_]; [lia|].
  cbn [json_first fst snd]. unfold get_api_apps, select_apps. rewrite Hf2.
  cbn [with_db db apps].
  eexists. eexists. split; [reflexivity|]. split; [reflexivity|].
  split; [|repeat split; try reflexivity].
  - rewrite merge_sort_Permutation. apply elem_of_app. right.
    now apply list_elem_of_singleton.
  - unfold read_timestamp, db_now. simpl. lia.
  - unfold read_timestamp, db_now. simpl. lia.
  - apply (StronglySorted_merge_sort newest_first).
  - apply merge_sort_Permutation.
Qed.

End Rows.

(** * The properties at work on the examples *)

Example st2_table : apps (db st2) = [wiki_row; mail_row].
Proof. reflexivity. Qed.

Lemma auth_gate_witness :
  handle decimal_int4in env0 (world 40) st2 (admin (DELETE_api_apps "1")) =
    handler decimal_int4in env0 (world 40) st2 (admin (DELETE_api_apps "1")) ∧
  handle decimal_int4in env0 (world 40) st2 (anonymous (DELETE_api_apps "1")) =
    (st2, {| status := 401; body := json_error "Yetkisiz erişim. Lütfen giriş yapın." |}) ∧
  handle decimal_int4in env0 (world 40) st2 (browser GET_admin) =
    (st2, {| status := 302; body := redirect_to "/login" |}).
Proof.
  split; [|split].
  - apply (auth_gate decimal_int4in env0 (world 40) st2 (admin (DELETE_api_apps "1")));
      vm_compute; reflexivity.
  - apply (auth_gate decimal_int4in env0 (world 40) st2 (anonymous (DELETE_api_apps "1")));
      vm_compute; reflexivity.
  - apply (auth_gate decimal_int4in env0 (world 40) st2 (browser GET_admin));
      vm_compute; reflexivity.
Defined.

Lemma auth_transitions_witness :
  ((handle decimal_int4in env0 (world 10) st0 (anonymous (POST_login good_login))).2 =
     {| status := 200; body := json_message "Giriş başarılı!" |} ∧
   sessions st1 !! "sid-1" = Some {| authenticated := true; user := Some "admin" |} ∧
   auth_state (sessions st1) "sid-1" = Authenticated) ∧
  handle decimal_int4in env0 (world 10) st0 (anonymous (POST_login bad_login)) =
    (st0, {| status := 401; body := json_error "Geçersiz kimlik bilgileri." |}) ∧
  ((handle decimal_int4in env0 (world 50) st1 (admin GET_logout)).2 =
     {| status := 200; body := json_message "Başarıyla çıkış yapıldı." |} ∧
   auth_state (sessions (handle decimal_int4in env0 (world 50) st1 (admin GET_logout)).1)
     "sid-1" = Unauthenticated) ∧
  (auth_state (sessions st0) "sid-1" = Unauthenticated ∧
   auth_state (sessions st1) "sid-1" = Authenticated).
Proof.
  split; [|split; [|split]].
  - destruct (auth_transitions decimal_int4in env0 (world 10) st0
                (anonymous (POST_login good_login))) as (H & _).
    exact (H good_login eq_refl eq_refl eq_refl).
  - destruct (auth_transitions decimal_int4in env0 (world 10) st0
                (anonymous (POST_login bad_login))) as (_ & H & _).
    apply (H bad_login eq_refl). intros [_ E]. discriminate E.
  - destruct (auth_transitions decimal_int4in env0 (world 50) st1 (admin GET_logout))
      as (_ & _ & H & _).
    destruct (H eq_refl) as (H1 & _ & H3). split; [exact H1|exact H3].
  - destruct (auth_transitions decimal_int4in env0 (world 10) st0
                (anonymous (POST_login good_login))) as (_ & _ & _ & H).
    destruct (H "sid-1") as (_ & [(b & _ & _ & _ & H1 & H2)|(E & _)]).
    + vm_compute. discriminate.
    + split; [exact H1|exact H2].
    + discriminate E.
Defined.

Lemma create_then_list_witness :
  ∃ r l,
    (handle decimal_int4in env0 (world 20) st1 (admin (POST_api_apps wiki))).2 =
      {| status := 200; body := json_app r |} ∧
    (handle decimal_int4in env0 (world 30)
       (handle decimal_int4in env0 (world 20) st1 (admin (POST_api_apps wiki))).1
       (anonymous GET_api_apps)).2 = {| status := 200; body := json_apps l |} ∧
    r ∈ l ∧
    App.title r = "Wiki" ∧ App.url r = "https://wiki.example" ∧
    App.image r = None ∧ App.healthpath r = Some "https://wiki.example/health" ∧
    read_timestamp (world 30) (App.created_at r) =
      ran_at (world 20) + (db_zone (world 20) - node_zone (world 30)) ∧
    (db_zone (world 20) = node_zone (world 30) →
     15 ≤ read_timestamp (world 30) (App.created_at r)) ∧
    StronglySorted (λ x y, App.created_at y ≤ App.created_at x) l ∧
    l ≡ₚ apps (db st1) ++ [r].
Proof.
  apply (create_then_list decimal_int4in env0 (world 20) (world 30) st1
           (admin (POST_api_apps wiki)) (anonymous GET_api_apps) wiki
           "Wiki" "https://wiki.example" 15);
    try reflexivity; vm_compute; congruence.
Defined.

Lemma update_responses_witness :
  (∃ r, r ∈ apps (db st2) ∧ App.id r = 2 ∧
        (handle decimal_int4in env0 (world 40) st2 (admin (PUT_api_apps "2" wiki))).2 =
          {| status := 200;
             body := json_app (App.mk 2 "Wiki" "https://wiki.example" None
                                 (Some "https://wiki.example/health") (App.created_at r)) |} ∧
        App.mk 2 "Wiki" "https://wiki.example" None
          (Some "https://wiki.example/health") (App.created_at r)
          ∈ apps (db (handle decimal_int4in env0 (world 40) st2
                        (admin (PUT_api_apps "2" wiki))).1)) ∧
  handle decimal_int4in env0 (world 40) st2 (admin (PUT_api_apps "7" wiki)) =
    (st2, {| status := 404; body := json_error "Uygulama bulunamadı." |}) ∧
  (handle decimal_int4in env0 (world 40) st2 (admin (PUT_api_apps "x" wiki))).2 =
    {| status := 500; body := json_error (pg_message (invalid_text_representation "x")) |} ∧
  handle decimal_int4in env0 world_down st2 (admin (PUT_api_apps "2" wiki)) =
    (st2, {| status := 500; body := json_error "connect ECONNREFUSED" |}).
Proof.
  split; [|split; [|split]].
  - destruct (update_responses decimal_int4in env0 (world 40) st2
                (admin (PUT_api_apps "2" wiki)) "2" wiki eq_refl eq_refl) as (H & _).
    apply (H 2 "Wiki" "https://wiki.example"); try reflexivity.
    exists mail_row. split; [|reflexivity]. rewrite st2_table. right. left.
  - destruct (update_responses decimal_int4in env0 (world 40) st2
                (admin (PUT_api_apps "7" wiki)) "7" wiki eq_refl eq_refl) as (_ & H & _).
    apply (H 7); try reflexivity.
    rewrite st2_table. intros r Hr.
    apply elem_of_cons in Hr as [->|Hr]; [discriminate|].
    apply list_elem_of_singleton in Hr as ->. discriminate.
  - destruct (update_responses decimal_int4in env0 (world 40) st2
                (admin (PUT_api_apps "x" wiki)) "x" wiki eq_refl eq_refl) as (_ & _ & H & _).
    apply H. reflexivity.
  - destruct (update_responses decimal_int4in env0 world_down st2
                (admin (PUT_api_apps "2" wiki)) "2" wiki eq_refl eq_refl) as (_ & _ & _ & H).
    apply H. reflexivity.
Defined.

Lemma delete_not_idempotent_witness :
  handle decimal_int4in env0 (world 40) st2 (admin (DELETE_api_apps "7")) =
    (st2, {| status := 404; body := json_error "Uygulama bulunamadı." |}) ∧
  (∃ r, r ∈ apps (db st2) ∧ App.id r = 1 ∧
        (handle decimal_int4in env0 (world 40) st2 (admin (DELETE_api_apps "1"))).2 =
          {| status := 200; body := json_removed "Uygulama silindi." r |} ∧
        r ∉ apps (db (handle decimal_int4in env0 (world 40) st2
                        (admin (DELETE_api_apps "1"))).1)) ∧
  (handle decimal_int4in env0 (world 50)
     (handle decimal_int4in env0 (world 40) st2 (admin (DELETE_api_apps "1"))).1
     (admin (DELETE_api_apps "1"))).2 =
    {| status := 404; body := json_error "Uygulama bulunamadı." |}.
Proof.
  split.
  - apply (delete_not_idempotent decimal_int4in env0 (world 40) (world 50) st2
             (admin (DELETE_api_apps "7")) "7" 7); try reflexivity.
    rewrite st2_table. intros r Hr.
    apply elem_of_cons in Hr as [->|Hr]; [discriminate|].
    apply list_elem_of_singleton in Hr as ->. discriminate.
  - apply (delete_not_idempotent decimal_int4in env0 (world 40) (world 50) st2
             (admin (DELETE_api_apps "1")) "1" 1); try reflexivity.
    exists wiki_row. split; [|reflexivity]. rewrite st2_table. left.
Defined.

Lemma malformed_id_witness :
  (∃ e, handle decimal_int4in env0 (world 40) st2 (admin (DELETE_api_apps "abc")) =
          (st2, {| status := 500; body := json_error (pg_message e) |}) ∧
        (db_fault (world 40) = None → decimal_int4in "abc" = invalid_syntax →
           e = invalid_text_representation "abc") ∧
        (db_fault (world 40) = None → decimal_int4in "abc" = out_of_range →
           e = numeric_value_out_of_range "abc") ∧
        (∀ m, db_fault (world 40) = Some m → e = database_error m)) ∧
  (∃ e, handle decimal_int4in env0 (world 40) st2
          (admin (PUT_api_apps "2147483648" wiki)) =
          (st2, {| status := 500; body := json_error (pg_message e) |}) ∧
        (db_fault (world 40) = None → decimal_int4in "2147483648" = invalid_syntax →
           e = invalid_text_representation "2147483648") ∧
        (db_fault (world 40) = None → decimal_int4in "2147483648" = out_of_range →
           e = numeric_value_out_of_range "2147483648") ∧
        (∀ m, db_fault (world 40) = Some m → e = database_error m)) ∧
  (∃ n, decimal_int4in "7" = int4 n ∧ db_fault (world 40) = None ∧
        ∀ r, r ∈ apps (db st2) → App.id r ≠ n).
Proof.
  split; [|split].
  - apply (malformed_id decimal_int4in env0 (world 40) st2
             (admin (DELETE_api_apps "abc")) "abc"); try reflexivity.
    + right. reflexivity.
    + intros n H. vm_compute in H. discriminate H.
  - apply (malformed_id decimal_int4in env0 (world 40) st2
             (admin (PUT_api_apps "2147483648" wiki)) "2147483648"); try reflexivity.
    + left. exists wiki. reflexivity.
    + intros n H. vm_compute in H. discriminate H.
  - apply (malformed_id decimal_int4in env0 (world 40) st2
             (admin (PUT_api_apps "7" wiki)) "7"); try reflexivity.
    left. exists wiki. reflexivity.
Defined.

(** The two answers to an id that is no integer of the type. *)
Example malformed_id_messages :
  (handle decimal_int4in env0 (world 40) st2 (admin (DELETE_api_apps "abc"))).2 =
    {| status := 500;
       body := json_error ("invalid input syntax for type integer: "
                           +:+ dquote +:+ "abc" +:+ dquote) |} ∧
  (handle decimal_int4in env0 (world 40) st2 (admin (DELETE_api_apps "2147483648"))).2 =
    {| status := 500;
       body := json_error ("value " +:+ dquote +:+ "2147483648" +:+ dquote
                           +:+ " is out of range for type integer") |} ∧
  (handle decimal_int4in env0 (world 40) st2 (admin (DELETE_api_apps " 2 "))).2 =
    {| status := 200; body := json_removed "Uygulama silindi." mail_row |}.
Proof. repeat split. Qed.

Lemma update_frame_witness :
  Forall2 (λ r r',
             App.id r' = App.id r ∧ App.created_at r' = App.created_at r ∧
             (r' = r ∨
              (body_title mail = Some (App.title r') ∧ body_url mail = Some (App.url r') ∧
               App.image r' = body_image mail ∧ App.healthpath r' = body_healthpath mail)))
          (apps (db st2))
          (apps (db (handle decimal_int4in env0 (world 40) st2
                       (admin (PUT_api_apps "1" mail))).1)) ∧
  apps_id_seq (db (handle decimal_int4in env0 (world 40) st2
                     (admin (PUT_api_apps "1" mail))).1) = apps_id_seq (db st2) ∧
  (∀ r', body (handle decimal_int4in env0 (world 40) st2
                 (admin (PUT_api_apps "1" mail))).2 = json_app r' →
         ∃ r, r ∈ apps (db st2) ∧
              App.id r' = App.id r ∧ App.created_at r' = App.created_at r).
Proof.
  exact (update_frame decimal_int4in env0 (world 40) st2
           (admin (PUT_api_apps "1" mail)) "1" mail eq_refl).
Defined.

Lemma serial_ids_witness :
  Forall (λ i, i < 2)
    (created_ids
       [(world 10, anonymous (POST_login good_login));
        (world 20, admin (POST_api_apps wiki))]
       (run decimal_int4in env0 st0
          [(world 10, anonymous (POST_login good_login));
           (world 20, admin (POST_api_apps wiki))]).2) ∧
  NoDup (App.id <$> apps (db st2)).
Proof.
  destruct (serial_ids decimal_int4in env0
              [(world 10, anonymous (POST_login good_login));
               (world 20, admin (POST_api_apps wiki))]
              (world 30) st0 (admin (POST_api_apps mail)) mail mail_row
              eq_refl eq_refl eq_refl) as (H1 & _ & _ & _ & H5).
  split; [exact H1|exact H5].
Defined.

Example update_frame_example :
  apps (db (handle decimal_int4in env0 (world 40) st2 (admin (PUT_api_apps "1" mail))).1) =
  [App.mk 1 "Mail" "https://mail.example" (Some "mail.png") None 20; mail_row].
Proof. reflexivity. Qed.

Example created_ids_example :
  created_ids
    [(world 10, anonymous (POST_login good_login));
     (world 20, admin (POST_api_apps wiki));
     (world 25, admin (DELETE_api_apps "1"));
     (world 26, admin (POST_api_apps {| body_title := None; body_url := None;
                                        body_image := None; body_healthpath := None |}));
     (world 30, admin (POST_api_apps mail))]
    (run decimal_int4in env0 st0
       [(world 10, anonymous (POST_login good_login));
        (world 20, admin (POST_api_apps wiki));
        (world 25, admin (DELETE_api_apps "1"));
        (world 26, admin (POST_api_apps {| body_title := None; body_url := None;
                                           body_image := None; body_healthpath := None |}));
        (world 30, admin (POST_api_apps mail))]).2 = [1; 3].
Proof. reflexivity. Qed.

Example list_is_public :
  (handle decimal_int4in env0 (world 40) st2 (browser GET_api_apps)).2 =
  {| status := 200; body := json_apps [mail_row; wiki_row] |}.
Proof. reflexivity. Qed.

Example login_then_logout :
  let trace := [(world 10, anonymous (POST_login good_login));
                (world 20, admin (POST_api_apps wiki));
                (world 30, admin GET_logout);
                (world 40, admin (POST_api_apps mail))] in
  map status (run decimal_int4in env0 st0 trace).2 = [200; 200; 200; 401].
Proof. reflexivity. Qed.

(** A login that does not match, sent on a session that is Authenticated, is
    answered 401 and the session stays as it is. *)
Example failed_login_keeps_session :
  handle decimal_int4in env0 (world 40) st2 (admin (POST_login bad_login)) =
    (st2, {| status := 401; body := json_error "Geçersiz kimlik bilgileri." |}) ∧
  auth_state (sessions st2) "sid-1" = Authenticated.
Proof. split; reflexivity. Qed.

(** * Further properties of the handlers *)

(** ** Substrings *)

Lemma append_cons (c : ascii) (a p : string) : String c a +:+ p = String c (a +:+ p).
Proof. reflexivity. Qed.

Lemma prefix_split (a h : string) :
  String.prefix a h = true ↔ ∃ post, h = a +:+ post.
Proof.
  revert h. induction a as [|c a IH]; intros h.
  - split; [intros _; now exists h|intros _; now destruct h].
  - destruct h as [|d h]; cbn [String.prefix].
    + split; [discriminate|intros [post E]; discriminate E].
    + destruct (Ascii.ascii_dec c d) as [->|Hne].
      * rewrite IH. split; intros [post E]; exists post.
        -- rewrite append_cons. now rewrite E.
        -- rewrite append_cons in E. congruence.
      * split; [discriminate|]. intros [post E]. rewrite append_cons in E. congruence.
Qed.

Lemma includes_split (a h : string) :
  includes a h = true ↔ ∃ pre post, h = pre +:+ a +:+ post.
Proof.
  induction h as [|d h IH].
  - cbn [includes]. rewrite orb_false_r, prefix_split. split.
    + intros [post E]. now exists EmptyString, post.
    + intros (pre & post & E). destruct pre as [|c pre]; [|discriminate E].
      now exists post.
  - cbn [includes]. rewrite orb_true_iff, prefix_split, IH. split.
    + intros [[post E]|(pre & post & E)].
      * now exists EmptyString, post.
      * exists (String d pre), post. rewrite append_cons. now rewrite E.
    + intros (pre & post & E). destruct pre as [|c pre].
      * left. now exists post.
      * right. exists pre, post. rewrite append_cons in E. congruence.
Qed.

(** X12. The gate answers 401 exactly when the session is not authenticated
    and the Accept header holds the text application/json somewhere; it
    redirects exactly when the session is not authenticated and the header is
    missing or does not hold that text. *)
Theorem gate_accept_substring (s : Session) (a : option string) :
  (isAuthenticated (Some s) a =
     ended {| status := 401; body := json_error "Yetkisiz erişim. Lütfen giriş yapın." |}
   ↔ authenticated s = false ∧
     ∃ pre post, a = Some (pre +:+ "application/json" +:+ post)) ∧
  (isAuthenticated (Some s) a = ended {| status := 302; body := redirect_to "/login" |}
   ↔ authenticated s = false ∧
     ∀ pre post, a ≠ Some (pre +:+ "application/json" +:+ post)).
Proof.
  rewrite isAuthenticated_cases.
  assert (Hd : declares_json a = true ↔
               ∃ pre post, a = Some (pre +:+ "application/json" +:+ post)).
  { unfold declares_json. destruct a as [h|].
    - rewrite includes_split. split; intros (pre & post & E); exists pre, post; congruence.
    - split; [discriminate|]. intros (pre & post & E). discriminate E. }
  destruct (authenticated s).
  { split; split; try discriminate; intros [E _]; discriminate E. }
  destruct (declares_json a) eqn:Hj.
  - destruct (proj1 Hd eq_refl) as (pre & post & E).
    split; split; try discriminate.
    + intros _. split; [reflexivity|eauto].
    + intros _. reflexivity.
    + intros [_ H]. now destruct (H pre post).
  - split; split; try discriminate.
    + intros [_ H]. apply Hd in H. discriminate H.
    + intros _. split; [reflexivity|]. intros pre post E.
      assert (H : false = true) by (apply Hd; eauto). discriminate H.
    + intros _. reflexivity.
Qed.

Lemma gate_accept_substring_witness :
  isAuthenticated (Some new_session) (Some "text/html, application/json;q=0.9") =
    ended {| status := 401; body := json_error "Yetkisiz erişim. Lütfen giriş yapın." |} ∧
  isAuthenticated (Some new_session) (Some "text/html,*/*;q=0.8") =
    ended {| status := 302; body := redirect_to "/login" |}.
Proof.
  split.
  - apply (gate_accept_substring new_session (Some "text/html, application/json;q=0.9")).
    split; [reflexivity|]. exists "text/html, ", ";q=0.9". reflexivity.
  - apply (gate_accept_substring new_session (Some "text/html,*/*;q=0.8")).
    split; [reflexivity|]. intros pre post E.
    assert (H : includes "application/json" "text/html,*/*;q=0.8" = true).
    { apply includes_split. exists pre, post. congruence. }
    vm_compute in H. discriminate H.
Defined.

Lemma filter_empty_none (n : Z) (l : list App.t) :
  filter (λ r, has_id n r = true) l = [] → ∀ r, r ∈ l → App.id r ≠ n.
Proof.
  intros Hfil r Hr Hid.
  assert (H : r ∈ filter (λ r, has_id n r = true) l).
  { apply list_elem_of_filter. split; [|exact Hr]. now apply bool_decide_eq_true. }
  rewrite Hfil in H. inversion H.
Qed.

(** ** The gate, the session and the two stores *)

Section Gate.
Variable int4in : string → Int4.
Variable env : Env.

(** The session a request comes with depends on the session store and on the
    cookie only. *)
Lemma load_session_snd (w w' : World) (st st' : State) (req req' : Request) :
  sessions st' = sessions st → cookie req' = cookie req →
  (load_session w' st' req').2 = (load_session w st req).2.
Proof.
  unfold load_session. intros -> ->.
  destruct (cookie req) as [sid|]; [|reflexivity].
  now destruct (sessions st !! sid).
Qed.

(** A request goes to the handler of its route, on an open route or with an
    authenticated session, or the gate ends it and the state is as it was. *)
Lemma handle_gate (w : World) (st : State) (req : Request) :
  (handle int4in env w st req = handler int4in env w st req ∧
   (guarded (route req) = false ∨ request_auth w st req = Authenticated)) ∨
  (guarded (route req) = true ∧ request_auth w st req = Unauthenticated ∧
   (handle int4in env w st req =
      (st, {| status := 401; body := json_error "Yetkisiz erişim. Lütfen giriş yapın." |})
    ∨ handle int4in env w st req = (st, {| status := 302; body := redirect_to "/login" |}))).
Proof.
  unfold handle, request_auth, auth_of. destruct (guarded (route req)); [|left; auto].
  rewrite isAuthenticated_cases.
  destruct (authenticated _); [left; auto|].
  right. destruct (declares_json _); auto.
Qed.

(** The answers of the handlers of the routes that touch neither store. *)
Lemma handler_pure (w : World) (st : State) (req : Request) :
  write_route (route req) = false →
  (∀ b, route req ≠ POST_login b) → route req ≠ GET_logout →
  (handler int4in env w st req).1 = st.
Proof.
  unfold handler. intros Hw Hl Ho.
  destruct (route req) as [|b|id b|id|url| |b| | |]; try discriminate Hw; try reflexivity.
  - unfold get_api_apps. now destruct (select_apps w (db st)).
  - unfold get_proxy_health. destruct url as [[|c s]|]; try reflexivity.
    now destruct (fetch w (String c s)).
  - now destruct (Hl b).
  - now destruct Ho.
Qed.

(** X9. Only an authenticated create, update or delete changes the database:
    when the table or its sequence differs after a request, the route is one
    of the three writes and the session of the request is Authenticated. *)
Theorem writes_need_auth (w : World) (st : State) (req : Request) :
  db (handle int4in env w st req).1 ≠ db st →
  write_route (route req) = true ∧ request_auth w st req = Authenticated.
Proof.
  intros Hdb.
  destruct (handle_gate w st req) as [[E Hg]|(_ & _ & [E|E])];
    try (rewrite E in Hdb; now destruct Hdb).
  rewrite E, handler_db in Hdb.
  destruct (route req) as [|b|id b|id|url| |b| | |]; try (now destruct Hdb);
    (split; [reflexivity|]); destruct Hg as [Hg|Hg]; try discriminate Hg; exact Hg.
Qed.

(** X10. The admin page is sent on its own route to an authenticated session,
    and to nobody else. *)
Theorem admin_page_protected (w : World) (st : State) (req : Request) :
  body (handle int4in env w st req).2 = file "views" "admin.html" →
  route req = GET_admin ∧ request_auth w st req = Authenticated.
Proof.
  intros Hb.
  destruct (handle_gate w st req) as [[E Hg]|(_ & _ & [E|E])];
    try (rewrite E in Hb; discriminate Hb).
  rewrite E in Hb. unfold handler in Hb.
  destruct (route req) as [|b|id b|id|url| |b| | |].
  - unfold get_api_apps in Hb. destruct (select_apps _ _); discriminate Hb.
  - unfold post_api_apps in Hb.
    destruct (insert_app _ _ _) as [d [e|[|r rows]]]; discriminate Hb.
  - unfold put_api_apps in Hb.
    destruct (update_app _ _ _ _ _) as [d [e|[|r rows]]]; discriminate Hb.
  - unfold delete_api_apps in Hb.
    destruct (delete_app _ _ _ _) as [d [e|[|r rows]]]; discriminate Hb.
  - unfold get_proxy_health in Hb. destruct url as [[|c s]|]; try discriminate Hb.
    destruct (fetch _ _); discriminate Hb.
  - discriminate Hb.
  - unfold post_login in Hb. destruct (load_session _ _ _).
    destruct (_ && _); discriminate Hb.
  - unfold get_logout in Hb. destruct (load_session _ _ _). discriminate Hb.
  - split; [reflexivity|]. destruct Hg as [Hg|Hg]; [discriminate Hg|exact Hg].
  - discriminate Hb.
Qed.

(** X11. A request that is not answered 200 leaves the whole state as it
    was, table, sequence and session store, with one exception: a create of an
    authenticated session that the store refuses for a missing title or url
    is answered 500 and has taken one value from the sequence; the rows and
    the session store are as they were there too. *)
Theorem refused_changes_nothing (w : World) (st : State) (req : Request) :
  status (handle int4in env w st req).2 ≠ 200 →
  apps (db (handle int4in env w st req).1) = apps (db st) ∧
  sessions (handle int4in env w st req).1 = sessions st ∧
  ((handle int4in env w st req).1 = st ∨
   ∃ b, route req = POST_api_apps b ∧
        request_auth w st req = Authenticated ∧
        db_fault w = None ∧
        (body_title b = None ∨ body_url b = None) ∧
        status (handle int4in env w st req).2 = 500 ∧
        apps_id_seq (db (handle int4in env w st req).1) = apps_id_seq (db st) + 1).
Proof.
  intros Hs.
  destruct (handle_gate w st req) as [[E Hg]|(_ & _ & [E|E])];
    try (rewrite E; repeat split; left; reflexivity).
  rewrite E in Hs |- *. revert Hs. unfold handler.
  destruct (route req) as [|b|id b|id|url| |b| | |] eqn:Hr.
  - unfold get_api_apps. destruct (select_apps _ _); repeat split; now left.
  - destruct Hg as [Hg|Hg]; [discriminate Hg|].
    unfold post_api_apps, insert_app.
    destruct (db_fault w); [rewrite with_db_same; repeat split; now left|].
    destruct (decide _); [rewrite with_db_same; repeat split; now left|].
    destruct (body_title b) eqn:Ht.
    + destruct (body_url b) eqn:Hu; [simpl; intros H; now destruct H|].
      intros _. repeat split. right. exists b. repeat split; auto.
    + intros _. repeat split. right. exists b. repeat split; auto.
  - unfold put_api_apps, update_app.
    destruct (db_fault w); [rewrite with_db_same; repeat split; now left|].
    destruct (int4in id) as [n| |];
      [|rewrite with_db_same; repeat split; now left
       |rewrite with_db_same; repeat split; now left].
    destruct (forallb _ _) eqn:Hall; [rewrite with_db_same; repeat split; now left|].
    destruct (body_title b); [|rewrite with_db_same; repeat split; now left].
    destruct (body_url b); [|rewrite with_db_same; repeat split; now left].
    destruct (filter _ _) as [|r rows] eqn:Hfil; simpl; [|intros H; now destruct H].
    pose proof (proj2 (no_row_forallb n _) (filter_empty_none n _ Hfil)). congruence.
  - unfold delete_api_apps, delete_app.
    destruct (db_fault w); [rewrite with_db_same; repeat split; now left|].
    destruct (int4in id) as [n| |];
      [|rewrite with_db_same; repeat split; now left
       |rewrite with_db_same; repeat split; now left].
    destruct (filter (λ r, has_id n r = true) _) as [|r rows] eqn:Hfil; simpl;
      [|intros H; now destruct H].
    intros _.
    rewrite (proj2 (filter_none n _ (filter_empty_none n _ Hfil))).
    destruct st as [[l q] ss]. repeat split. now left.
  - unfold get_proxy_health. destruct url as [[|c s]|]; try (repeat split; now left).
    destruct (fetch _ _); repeat split; now left.
  - repeat split; now left.
  - unfold post_login. destruct (load_session _ _ _).
    destruct (_ && _); simpl; [intros H; now destruct H|repeat split; now left].
  - unfold get_logout. destruct (load_session _ _ _). simpl. intros H; now destruct H.
  - repeat split; now left.
  - repeat split; now left.
Qed.

End Gate.

(** ** Login, access and logout in a row *)

Section Flows.
Variable int4in : string → Int4.
Variable env : Env.

(** X7. After a login with the configured pair, a request that carries the id
    of that session is let through the gate on every route, in any world. *)
Theorem login_then_access (w w' : World) (st : State) (req req' : Request) :
  matching_login env req →
  cookie req' = Some (load_session w st req).1 →
  request_auth w' (handle int4in env w st req).1 req' = Authenticated ∧
  handle int4in env w' (handle int4in env w st req).1 req' =
    handler int4in env w' (handle int4in env w st req).1 req'.
Proof.
  intros (b & Hr & Hu & Hp) Hc.
  assert (Ha : request_auth w' (handle int4in env w st req).1 req' = Authenticated).
  { unfold request_auth, load_session. rewrite Hc.
    rewrite handle_sessions, Hr, !bool_decide_eq_true_2 by assumption.
    cbn [andb]. now rewrite lookup_insert_eq. }
  split; [exact Ha|]. now apply handle_authenticated.
Qed.

(** X8. After a logout, a request with the same cookie is refused on every
    guarded route: 401 or the redirect, and the state stays as it is. *)
Theorem logout_then_refused (w w' : World) (st : State) (req req' : Request) :
  route req = GET_logout →
  cookie req' = cookie req →
  guarded (route req') = true →
  handle int4in env w' (handle int4in env w st req).1 req' =
    ((handle int4in env w st req).1,
     {| status := 401; body := json_error "Yetkisiz erişim. Lütfen giriş yapın." |})
  ∨ handle int4in env w' (handle int4in env w st req).1 req' =
    ((handle int4in env w st req).1, {| status := 302; body := redirect_to "/login" |}).
Proof.
  intros Hr Hc Hg.
  assert (Hu : request_auth w' (handle int4in env w st req).1 req' = Unauthenticated).
  { unfold request_auth, load_session. rewrite Hc, handle_sessions, Hr.
    unfold load_session.
    destruct (cookie req) as [c|]; [|reflexivity].
    destruct (sessions st !! c) as [s|] eqn:Hs; simpl.
    - now rewrite lookup_delete_eq.
    - destruct (decide (uid w = c)) as [->|Hne].
      + now rewrite lookup_delete_eq.
      + rewrite lookup_delete_ne by assumption. now rewrite Hs. }
  destruct (handle_gate int4in env w' (handle int4in env w st req).1 req')
    as [[_ [H|H]]|(_ & _ & H)]; [congruence|congruence|exact H].
Qed.

(** A request that is no matching login makes no session authenticated. *)
Lemma handle_no_authenticated (w : World) (st : State) (req : Request) :
  ¬ matching_login env req →
  no_authenticated (sessions st) →
  no_authenticated (sessions (handle int4in env w st req).1).
Proof.
  intros Hm Hn. rewrite handle_sessions.
  destruct (route req) as [|b|id b|id|url| |b| | |] eqn:Hr; try exact Hn.
  - destruct (bool_decide (username b = _)) eqn:E1; [|exact Hn].
    destruct (bool_decide (password b = _)) eqn:E2; [|exact Hn].
    apply bool_decide_eq_true_1 in E1, E2.
    destruct Hm. exists b. auto.
  - intros sid s Hs. apply lookup_delete_Some in Hs as [_ Hs]. now apply (Hn sid).
Qed.

Lemma no_authenticated_request (w : World) (st : State) (req : Request) :
  no_authenticated (sessions st) → request_auth w st req = Unauthenticated.
Proof.
  intros Hn. unfold request_auth, load_session.
  destruct (cookie req) as [c|]; [|reflexivity].
  destruct (sessions st !! c) as [s|] eqn:Hs; [|reflexivity].
  simpl. apply auth_of_false. now apply (Hn c).
Qed.

Lemma unauthenticated_keeps_db (w : World) (st : State) (req : Request) :
  request_auth w st req = Unauthenticated →
  db (handle int4in env w st req).1 = db st.
Proof.
  intros Hu.
  destruct (handle_gate int4in env w st req) as [[E Hg]|(_ & _ & [E|E])];
    try (now rewrite E).
  rewrite E, handler_db.
  destruct Hg as [Hg|Hg]; [|congruence].
  destruct (route req); try reflexivity; discriminate Hg.
Qed.

(** X15. Without a matching login nobody writes: from a state with no
    authenticated session, a sequence of requests none of which is a login
    with the configured pair leaves the database as it was, and no session
    is authenticated at its end. *)
Theorem no_login_no_write (trace : list (World * Request)) (st : State) :
  no_authenticated (sessions st) →
  Forall (λ wr, ¬ matching_login env wr.2) trace →
  db (run int4in env st trace).1 = db st ∧
  no_authenticated (sessions (run int4in env st trace).1).
Proof.
  revert st. induction trace as [|[w req] rest IH]; intros st Hn Hall.
  - split; [reflexivity|exact Hn].
  - apply Forall_cons in Hall as [Hm Hall]. simpl in Hm.
    rewrite run_cons. cbn [fst].
    destruct (IH (handle int4in env w st req).1) as [Hdb Hn'];
      [now apply handle_no_authenticated|exact Hall|].
    split; [|exact Hn'].
    rewrite Hdb. apply unauthenticated_keeps_db.
    now apply no_authenticated_request.
Qed.

End Flows.

(** ** The open routes *)

Section Open.
Variable int4in : string → Int4.
Variable env : Env.

(** X1. The list is open and reads only: whatever the session and the
    headers, it leaves the state as it was; when the store answers it sends
    200 with every row of the table, each once, newest first; when the store
    fails it sends 500 with the error's message. *)
Theorem list_apps_open (w : World) (st : State) (req : Request) :
  route req = GET_api_apps →
  (handle int4in env w st req).1 = st ∧
  (db_fault w = None →
     ∃ l, (handle int4in env w st req).2 = {| status := 200; body := json_apps l |} ∧
          l ≡ₚ apps (db st) ∧
          (∀ r, r ∈ l ↔ r ∈ apps (db st)) ∧
          StronglySorted (λ x y, App.created_at y ≤ App.created_at x) l) ∧
  (∀ m, db_fault w = Some m →
     (handle int4in env w st req).2 = {| status := 500; body := json_error m |}).
Proof.
  intros Hr. rewrite (handle_list _ _ _ _ _ Hr). unfold get_api_apps, select_apps.
  split; [now destruct (db_fault w)|]. split.
  - intros ->. eexists. split; [reflexivity|].
    split; [apply merge_sort_Permutation|]. split.
    + intros r. now rewrite merge_sort_Permutation.
    + apply (StronglySorted_merge_sort newest_first).
  - intros m ->. reflexivity.
Qed.

(** X2. The configuration endpoint is open and reads only; the name and the
    icon it sends are never empty: the value of the environment when it is
    set and not empty, the built-in default otherwise. *)
Theorem config_defaults (w : World) (st : State) (req : Request) :
  route req = GET_api_config →
  ∃ name icon,
    handle int4in env w st req = (st, {| status := 200; body := json_config name icon |}) ∧
    name ≠ EmptyString ∧ icon ≠ EmptyString ∧
    (¬ absent_or_empty (COMPANY_NAME env) → Some name = COMPANY_NAME env) ∧
    (absent_or_empty (COMPANY_NAME env) → name = "Default Company") ∧
    (¬ absent_or_empty (COMPANY_ICON_URL env) → Some icon = COMPANY_ICON_URL env) ∧
    (absent_or_empty (COMPANY_ICON_URL env) → icon = "https://via.placeholder.com/40").
Proof.
  intros Hr. unfold handle, handler. rewrite Hr. cbn [guarded]. unfold get_api_config.
  eexists. eexists. split; [reflexivity|].
  unfold absent_or_empty.
  destruct (COMPANY_NAME env) as [[|c s]|], (COMPANY_ICON_URL env) as [[|c' s']|]; simpl;
    repeat split; try discriminate; try reflexivity; intros H;
    try (destruct H as [H|H]; discriminate H);
    try (exfalso; apply H; auto).
Qed.

End Open.

(** X14. The health proxy is open and reads only: it leaves the state as it
    was, and its answer depends on the [url] parameter and on the network
    alone, not on the session, the headers, the environment, the store or the
    state: two requests with the same [url], answered by the same network,
    get the same response whatever else differs. *)
Theorem proxy_open (int4in int4in' : string → Int4) (env env' : Env) (w w' : World)
    (st st' : State) (req req' : Request) (url : option string) :
  route req = GET_proxy_health url →
  route req' = GET_proxy_health url →
  (∀ u, fetch w' u = fetch w u) →
  (handle int4in env w st req).1 = st ∧
  (handle int4in' env' w' st' req').2 = (handle int4in env w st req).2.
Proof.
  intros Hr Hr' Hnet. unfold handle, handler. rewrite Hr, Hr'. cbn [guarded].
  unfold get_proxy_health.
  destruct url as [[|c s]|]; try (split; reflexivity).
  rewrite Hnet. destruct (fetch w (String c s)); split; reflexivity.
Qed.

(** ** The writes, row by row *)

Lemma update_twice_lists (n : Z) (t u : string) (i h : option string) (l : list App.t) :
  let upd := set_fields t u i h in
  let g := λ r, if has_id n r then upd r else r in
  forallb (λ r, negb (has_id n r)) (map g l) = forallb (λ r, negb (has_id n r)) l ∧
  map g (map g l) = map g l ∧
  map upd (filter (λ r, has_id n r = true) (map g l)) =
    map upd (filter (λ r, has_id n r = true) l).
Proof.
  intros upd g.
  assert (Hid : ∀ r, has_id n (g r) = has_id n r).
  { intros r. unfold g. destruct (has_id n r) eqn:E; [|exact E]. exact E. }
  assert (Hgg : ∀ r, g (g r) = g r).
  { intros r. unfold g at 1. rewrite Hid. unfold g.
    destruct (has_id n r); reflexivity. }
  induction l as [|a l (IH1 & IH2 & IH3)]; [repeat split|].
  cbn [map forallb]. rewrite Hid, IH1, Hgg, IH2.
  split; [reflexivity|]. split; [reflexivity|].
  rewrite !filter_cons, Hid.
  destruct (decide (has_id n a = true)) as [E|E]; [|exact IH3].
  cbn [map]. rewrite IH3. f_equal. unfold g. now rewrite E.
Qed.

Lemma delete_one_row (n : Z) (l : list App.t) :
  NoDup (App.id <$> l) → (∃ r, r ∈ l ∧ App.id r = n) →
  length l = S (length (filter (λ r, has_id n r = false) l)).
Proof.
  induction l as [|a l IH]; intros Hnd (r & Hr & Hid); [inversion Hr|].
  rewrite fmap_cons in Hnd. apply NoDup_cons in Hnd as [Ha Hnd].
  rewrite filter_cons.
  destruct (decide (has_id n a = false)) as [E|E].
  - cbn [length]. f_equal. apply IH; [exact Hnd|].
    apply elem_of_cons in Hr as [->|Hr]; [|eauto].
    apply bool_decide_eq_false in E. now destruct E.
  - apply not_false_is_true, bool_decide_eq_true in E.
    assert (Hno : ∀ r', r' ∈ l → App.id r' ≠ n).
    { intros r' Hr' Hid'. apply Ha, list_elem_of_fmap. exists r'. split; [congruence|exact Hr']. }
    now rewrite (proj2 (filter_none n l Hno)).
Qed.

Section Writes.
Variable int4in : string → Int4.
Variable env : Env.

(** X3. A create that is answered 200 appends exactly the returned row to the
    table, with the next value of the sequence as id and the clock of the
    statement as [created_at]; the rows that were there stay as they were, in
    place. Any other answer to a create is 401, 302 or 500 and the rows are as
    before. The session store is not touched either way. *)
Theorem create_frame (w : World) (st : State) (req : Request) (b : AppBody) :
  route req = POST_api_apps b →
  sessions (handle int4in env w st req).1 = sessions st ∧
  ((∃ r, (handle int4in env w st req).2 = {| status := 200; body := json_app r |} ∧
         request_auth w st req = Authenticated ∧
         apps (db (handle int4in env w st req).1) = apps (db st) ++ [r] ∧
         App.id r = apps_id_seq (db st) ∧
         App.created_at r = db_now w ∧
         apps_id_seq (db (handle int4in env w st req).1) = apps_id_seq (db st) + 1)
   ∨ (status (handle int4in env w st req).2 ∈ [401; 302; 500] ∧
      apps (db (handle int4in env w st req).1) = apps (db st))).
Proof.
  intros Hr. split; [now rewrite handle_sessions, Hr|].
  assert (H401 : 401 ∈ [401; 302; 500]) by (apply list_elem_of_In; simpl; tauto).
  assert (H302 : 302 ∈ [401; 302; 500]) by (apply list_elem_of_In; simpl; tauto).
  assert (H500 : 500 ∈ [401; 302; 500]) by (apply list_elem_of_In; simpl; tauto).
  destruct (handle_gate int4in env w st req) as [[E Hg]|(_ & _ & [E|E])];
    rewrite E; try (right; split; [assumption|reflexivity]).
  destruct Hg as [Hg|Hg]; [rewrite Hr in Hg; discriminate Hg|].
  unfold handler. rewrite Hr. unfold post_api_apps, insert_app.
  destruct (db_fault w); [right; split; [assumption|reflexivity]|].
  destruct (decide _); [right; split; [assumption|reflexivity]|].
  destruct (body_title b) as [t|]; [|right; split; [assumption|reflexivity]].
  destruct (body_url b) as [u|]; [|right; split; [assumption|reflexivity]].
  left. eexists. repeat split; try reflexivity. exact Hg.
Qed.

(** X4. A delete that is answered 200 removes the rows of the id it was given
    and no other: the returned row was in the table, the rows that remain are
    those of a different id, in their order, and when ids are unique in the
    table exactly one row is gone. The sequence and the sessions stay. *)
Theorem delete_frame (w : World) (st : State) (req : Request) (id : string) :
  route req = DELETE_api_apps id →
  apps_id_seq (db (handle int4in env w st req).1) = apps_id_seq (db st) ∧
  sessions (handle int4in env w st req).1 = sessions st ∧
  (status (handle int4in env w st req).2 = 200 →
   ∃ n r,
     int4in id = int4 n ∧
     body (handle int4in env w st req).2 = json_removed "Uygulama silindi." r ∧
     r ∈ apps (db st) ∧ App.id r = n ∧
     apps (db (handle int4in env w st req).1) `sublist_of` apps (db st) ∧
     (∀ r', r' ∈ apps (db (handle int4in env w st req).1) ↔
            r' ∈ apps (db st) ∧ App.id r' ≠ n) ∧
     (NoDup (App.id <$> apps (db st)) →
      length (apps (db st)) = S (length (apps (db (handle int4in env w st req).1))))).
Proof.
  intros Hr. split; [|split; [now rewrite handle_sessions, Hr|]].
  { destruct (handle_gate int4in env w st req) as [[E _]|(_ & _ & [E|E])];
      try (now rewrite E).
    rewrite E, handler_db, Hr. unfold delete_app.
    destruct (db_fault w); [reflexivity|]. now destruct (int4in id). }
  destruct (handle_gate int4in env w st req) as [[E _]|(_ & _ & [E|E])];
    rewrite E; try discriminate.
  unfold handler. rewrite Hr. unfold delete_api_apps, delete_app.
  destruct (db_fault w); [discriminate|].
  destruct (int4in id) as [n| |]; [|discriminate|discriminate].
  destruct (filter (λ r, has_id n r = true) (apps (db st))) as [|r rows] eqn:Hfil;
    [discriminate|].
  intros _. exists n, r.
  assert (Hin : r ∈ filter (λ r, has_id n r = true) (apps (db st)))
    by (rewrite Hfil; left).
  apply list_elem_of_filter in Hin as [Hid Hin]. apply bool_decide_eq_true in Hid.
  cbn [fst snd with_db db apps body].
  repeat split; try assumption.
  - apply sublist_filter.
  - now apply list_elem_of_filter in H as [_ H].
  - apply list_elem_of_filter in H as [H _]. now apply bool_decide_eq_false in H.
  - intros [H1 H2]. apply list_elem_of_filter. split; [|exact H1].
    now apply bool_decide_eq_false.
  - intros Hnd. apply delete_one_row; eauto.
Qed.

Lemma update_app_twice (w1 w2 : World) (d : Db) (b : AppBody) (id : string) :
  db_fault w1 = None → db_fault w2 = None →
  update_app int4in w2 (update_app int4in w1 d b id).1 b id = update_app int4in w1 d b id.
Proof.
  intros H1 H2.
  destruct (int4in id) as [n| |] eqn:Hn.
  2:{ unfold update_app. now rewrite H1, H2, Hn. }
  2:{ unfold update_app. now rewrite H1, H2, Hn. }
  destruct (forallb (λ r, negb (has_id n r)) (apps d)) eqn:Hall.
  { unfold update_app. rewrite H1, H2, Hn, Hall. cbn [fst]. now rewrite Hall. }
  destruct (body_title b) as [t|] eqn:Ht.
  2:{ unfold update_app. rewrite H1, H2, Hn, Hall, Ht. cbn [fst]. now rewrite Hall. }
  destruct (body_url b) as [u|] eqn:Hu.
  2:{ unfold update_app. rewrite H1, H2, Hn, Hall, Ht, Hu. cbn [fst]. now rewrite Hall. }
  unfold update_app. rewrite H1, H2, Hn, Hall, Ht, Hu. cbn [fst apps apps_id_seq].
  destruct (update_twice_lists n t u (body_image b) (body_healthpath b) (apps d))
    as (E1 & E2 & E3).
  cbv zeta in E1, E2, E3. rewrite E1, Hall, E2.
  now rewrite E3.
Qed.

(** The rows after a create that returned a row. *)
Lemma create_frame_rows (w : World) (st : State) (req : Request) (b : AppBody) (r : App.t) :
  route req = POST_api_apps b →
  (handle int4in env w st req).2 = {| status := 200; body := json_app r |} →
  apps (db (handle int4in env w st req).1) = apps (db st) ++ [r] ∧
  App.id r = apps_id_seq (db st).
Proof.
  intros Hr.
  destruct (handle_gate int4in env w st req) as [[E _]|(_ & _ & [E|E])];
    rewrite E; try discriminate.
  unfold handler. rewrite Hr. unfold post_api_apps, insert_app.
  destruct (db_fault w); [discriminate|].
  destruct (decide _); [discriminate|].
  destruct (body_title b) as [t|]; [|discriminate].
  destruct (body_url b) as [u|]; [|discriminate].
  cbn [fst snd json_first with_db db apps]. intros [= <-]. split; reflexivity.
Qed.

(** A request the gate ends is ended the same way in every world. *)
Lemma handle_refused_world (w w' : World) (st : State) (req : Request) :
  guarded (route req) = true → request_auth w st req = Unauthenticated →
  handle int4in env w' st req = handle int4in env w st req.
Proof.
  intros Hg Hu. unfold handle. rewrite Hg, !isAuthenticated_cases.
  rewrite (load_session_snd w w' st st req req eq_refl eq_refl).
  unfold request_auth in Hu. apply auth_of_false in Hu. rewrite Hu.
  now destruct (declares_json (accept req)).
Qed.

(** X5. Update is idempotent: when the store is reachable both times, sending
    an update again gives the same answer and leaves the state the first one
    made. *)
Theorem update_idempotent (w1 w2 : World) (st : State) (req : Request)
    (id : string) (b : AppBody) :
  route req = PUT_api_apps id b →
  db_fault w1 = None → db_fault w2 = None →
  handle int4in env w2 (handle int4in env w1 st req).1 req = handle int4in env w1 st req.
Proof.
  intros Hr H1 H2.
  destruct (handle_gate int4in env w1 st req) as [[E Hg]|(Hg & Hu & E)].
  - destruct Hg as [Hg|Ha]; [rewrite Hr in Hg; discriminate Hg|].
    assert (Ha2 : request_auth w2 (handle int4in env w1 st req).1 req = Authenticated).
    { apply (request_auth_stable w1 w2 st); [|exact Ha]. now rewrite handle_sessions, Hr. }
    rewrite (handle_authenticated _ _ _ _ _ Ha2), E.
    unfold handler. rewrite Hr. unfold put_api_apps at 1.
    rewrite put_api_apps_db, update_app_twice by assumption.
    unfold put_api_apps.
    destruct (update_app int4in w1 (db st) b id) as [d [e|rows]]; [reflexivity|].
    now destruct (bool_decide _).
  - assert (E' : handle int4in env w1 st req = (st, (handle int4in env w1 st req).2))
      by (destruct E as [E|E]; now rewrite E).
    rewrite E' at 1. cbn [fst]. now apply handle_refused_world.
Qed.

(** X6. Create, then delete the id the create returned: the delete answers 200
    with the very row the create returned, and the table has the rows it had
    before the create. *)
Theorem create_then_delete (w1 w2 : World) (st : State) (req req' : Request)
    (b : AppBody) (r : App.t) (id : string) :
  serial_key (db st) →
  route req = POST_api_apps b →
  (handle int4in env w1 st req).2 = {| status := 200; body := json_app r |} →
  route req' = DELETE_api_apps id →
  int4in id = int4 (App.id r) →
  db_fault w2 = None →
  request_auth w2 (handle int4in env w1 st req).1 req' = Authenticated →
  (handle int4in env w2 (handle int4in env w1 st req).1 req').2 =
    {| status := 200; body := json_removed "Uygulama silindi." r |} ∧
  apps (db (handle int4in env w2 (handle int4in env w1 st req).1 req').1) = apps (db st).
Proof.
  intros [Hlt _] Hr Hres Hr' Hid Hf2 Ha2.
  rewrite (handle_authenticated _ _ _ _ _ Ha2). clear Ha2.
  destruct (create_frame_rows w1 st req b r Hr Hres) as (Happs & Hseq).
  unfold handler. rewrite Hr'. unfold delete_api_apps, delete_app.
  rewrite Hf2, Hid, Happs.
  assert (Hno : ∀ r', r' ∈ apps (db st) → App.id r' ≠ App.id r).
  { intros r' Hin. rewrite Forall_forall in Hlt. apply Hlt in Hin. lia. }
  destruct (filter_none (App.id r) _ Hno) as [E1 E2].
  assert (Hr1 : has_id (App.id r) r = true) by now apply bool_decide_eq_true.
  rewrite !filter_app, E1, E2, !filter_cons, !filter_nil, Hr1.
  destruct (decide (true = true)) as [_|H]; [|now destruct H].
  destruct (decide (true = false)) as [H|_]; [discriminate H|].
  cbn [app fst snd with_db db apps]. split; [reflexivity|apply app_nil_r].
Qed.

End Writes.

(** * The further properties at work on the examples *)

Lemma writes_need_auth_witness :
  write_route (route (admin (POST_api_apps wiki))) = true ∧
  request_auth (world 20) st1 (admin (POST_api_apps wiki)) = Authenticated.
Proof.
  apply (writes_need_auth decimal_int4in env0 (world 20) st1 (admin (POST_api_apps wiki))).
  vm_compute. discriminate.
Defined.

Lemma admin_page_protected_witness :
  route (admin GET_admin) = GET_admin ∧
  request_auth (world 20) st1 (admin GET_admin) = Authenticated.
Proof.
  apply (admin_page_protected decimal_int4in env0 (world 20) st1 (admin GET_admin)).
  reflexivity.
Defined.

Lemma refused_changes_nothing_witness :
  (handle decimal_int4in env0 (world 40) st2 (admin (DELETE_api_apps "7"))).1 = st2 ∧
  (apps (db (handle decimal_int4in env0 (world 40) st2
               (admin (POST_api_apps {| body_title := Some "Wiki"; body_url := None;
                                        body_image := None; body_healthpath := None |}))).1) =
     apps (db st2) ∧
   apps_id_seq (db (handle decimal_int4in env0 (world 40) st2
               (admin (POST_api_apps {| body_title := Some "Wiki"; body_url := None;
                                        body_image := None; body_healthpath := None |}))).1) =
     apps_id_seq (db st2) + 1).
Proof.
  split.
  - destruct (refused_changes_nothing decimal_int4in env0 (world 40) st2
                (admin (DELETE_api_apps "7"))) as (_ & _ & [H|(b & H & _)]).
    + vm_compute. discriminate.
    + exact H.
    + discriminate H.
  - destruct (refused_changes_nothing decimal_int4in env0 (world 40) st2
                (admin (POST_api_apps {| body_title := Some "Wiki"; body_url := None;
                                         body_image := None; body_healthpath := None |})))
      as (H1 & _ & [H|(b & _ & _ & _ & _ & _ & H)]).
    + vm_compute. discriminate.
    + split; [exact H1|]. now rewrite H.
    + split; [exact H1|exact H].
Defined.

Lemma login_then_access_witness :
  request_auth (world 20) st1 (admin (POST_api_apps wiki)) = Authenticated ∧
  handle decimal_int4in env0 (world 20) st1 (admin (POST_api_apps wiki)) =
    handler decimal_int4in env0 (world 20) st1 (admin (POST_api_apps wiki)).
Proof.
  apply (login_then_access decimal_int4in env0 (world 10) (world 20) st0
           (anonymous (POST_login good_login)) (admin (POST_api_apps wiki))).
  - exists good_login. repeat split.
  - reflexivity.
Defined.

Lemma logout_then_refused_witness :
  handle decimal_int4in env0 (world 40)
    (handle decimal_int4in env0 (world 30) st2 (admin GET_logout)).1
    (admin (DELETE_api_apps "1")) =
    ((handle decimal_int4in env0 (world 30) st2 (admin GET_logout)).1,
     {| status := 401; body := json_error "Yetkisiz erişim. Lütfen giriş yapın." |})
  ∨ handle decimal_int4in env0 (world 40)
      (handle decimal_int4in env0 (world 30) st2 (admin GET_logout)).1
      (admin (DELETE_api_apps "1")) =
    ((handle decimal_int4in env0 (world 30) st2 (admin GET_logout)).1,
     {| status := 302; body := redirect_to "/login" |}).
Proof.
  apply (logout_then_refused decimal_int4in env0 (world 30) (world 40) st2
           (admin GET_logout) (admin (DELETE_api_apps "1"))); reflexivity.
Defined.

Lemma no_login_no_write_witness :
  db (run decimal_int4in env0 st0
        [(world 10, anonymous (POST_login bad_login));
         (world 20, anonymous (POST_api_apps wiki));
         (world 30, admin (DELETE_api_apps "1"))]).1 = db st0 ∧
  no_authenticated
    (sessions (run decimal_int4in env0 st0
                 [(world 10, anonymous (POST_login bad_login));
                  (world 20, anonymous (POST_api_apps wiki));
                  (world 30, admin (DELETE_api_apps "1"))]).1).
Proof.
  apply (no_login_no_write decimal_int4in env0).
  - intros sid s H. simpl in H. rewrite lookup_empty in H. discriminate H.
  - repeat constructor; simpl; intros (b & H & _ & Hp); try discriminate H.
    injection H as <-. discriminate Hp.
Defined.

Lemma list_apps_open_witness :
  (handle decimal_int4in env0 (world 40) st2 (browser GET_api_apps)).1 = st2 ∧
  (db_fault (world 40) = None →
     ∃ l, (handle decimal_int4in env0 (world 40) st2 (browser GET_api_apps)).2 =
            {| status := 200; body := json_apps l |} ∧
          l ≡ₚ apps (db st2) ∧
          (∀ r, r ∈ l ↔ r ∈ apps (db st2)) ∧
          StronglySorted (λ x y, App.created_at y ≤ App.created_at x) l) ∧
  (∀ m, db_fault (world 40) = Some m →
     (handle decimal_int4in env0 (world 40) st2 (browser GET_api_apps)).2 =
       {| status := 500; body := json_error m |}).
Proof.
  exact (list_apps_open decimal_int4in env0 (world 40) st2 (browser GET_api_apps) eq_refl).
Defined.

Lemma config_defaults_witness :
  handle decimal_int4in env1 (world 40) st0 (browser GET_api_config) =
    (st0, {| status := 200;
             body := json_config "Acme" "https://via.placeholder.com/40" |}).
Proof.
  destruct (config_defaults decimal_int4in env1 (world 40) st0 (browser GET_api_config)
              eq_refl) as (name & icon & E & _ & _ & Hn & _ & _ & Hi).
  rewrite E.
  assert (En : Some name = COMPANY_NAME env1).
  { apply Hn. intros [H|H]; discriminate H. }
  injection En as ->. rewrite Hi; [reflexivity|]. right. reflexivity.
Defined.

Lemma proxy_open_witness :
  (handle decimal_int4in env0 (world 40) st0
     (anonymous (GET_proxy_health (Some "http://up.example/health")))).1 = st0 ∧
  (handle (λ _, invalid_syntax) env1 (world_east 50) st2
     (admin (GET_proxy_health (Some "http://up.example/health")))).2 =
  (handle decimal_int4in env0 (world 40) st0
     (anonymous (GET_proxy_health (Some "http://up.example/health")))).2.
Proof.
  apply (proxy_open decimal_int4in (λ _, invalid_syntax) env0 env1
           (world 40) (world_east 50) st0 st2
           (anonymous (GET_proxy_health (Some "http://up.example/health")))
           (admin (GET_proxy_health (Some "http://up.example/health")))
           (Some "http://up.example/health")); reflexivity.
Defined.

Lemma create_frame_witness :
  sessions (handle decimal_int4in env0 (world 20) st1 (admin (POST_api_apps wiki))).1 =
    sessions st1 ∧
  ((∃ r, (handle decimal_int4in env0 (world 20) st1 (admin (POST_api_apps wiki))).2 =
           {| status := 200; body := json_app r |} ∧
         request_auth (world 20) st1 (admin (POST_api_apps wiki)) = Authenticated ∧
         apps (db (handle decimal_int4in env0 (world 20) st1
                     (admin (POST_api_apps wiki))).1) = apps (db st1) ++ [r] ∧
         App.id r = apps_id_seq (db st1) ∧
         App.created_at r = db_now (world 20) ∧
         apps_id_seq (db (handle decimal_int4in env0 (world 20) st1
                            (admin (POST_api_apps wiki))).1) = apps_id_seq (db st1) + 1)
   ∨ (status (handle decimal_int4in env0 (world 20) st1 (admin (POST_api_apps wiki))).2
        ∈ [401; 302; 500] ∧
      apps (db (handle decimal_int4in env0 (world 20) st1 (admin (POST_api_apps wiki))).1) =
        apps (db st1))).
Proof.
  exact (create_frame decimal_int4in env0 (world 20) st1 (admin (POST_api_apps wiki))
           wiki eq_refl).
Defined.

Lemma delete_frame_witness :
  ∃ n r,
    decimal_int4in "1" = int4 n ∧
    body (handle decimal_int4in env0 (world 40) st2 (admin (DELETE_api_apps "1"))).2 =
      json_removed "Uygulama silindi." r ∧
    r ∈ apps (db st2) ∧ App.id r = n ∧
    apps (db (handle decimal_int4in env0 (world 40) st2 (admin (DELETE_api_apps "1"))).1)
      `sublist_of` apps (db st2) ∧
    (∀ r', r' ∈ apps (db (handle decimal_int4in env0 (world 40) st2
                            (admin (DELETE_api_apps "1"))).1) ↔
           r' ∈ apps (db st2) ∧ App.id r' ≠ n) ∧
    (NoDup (App.id <$> apps (db st2)) →
     length (apps (db st2)) =
     S (length (apps (db (handle decimal_int4in env0 (world 40) st2
                            (admin (DELETE_api_apps "1"))).1)))).
Proof.
  destruct (delete_frame decimal_int4in env0 (world 40) st2 (admin (DELETE_api_apps "1"))
              "1" eq_refl) as (_ & _ & H).
  apply H. reflexivity.
Defined.

Lemma update_idempotent_witness :
  handle decimal_int4in env0 (world 50)
    (handle decimal_int4in env0 (world 40) st2 (admin (PUT_api_apps "1" mail))).1
    (admin (PUT_api_apps "1" mail)) =
  handle decimal_int4in env0 (world 40) st2 (admin (PUT_api_apps "1" mail)).
Proof.
  apply (update_idempotent decimal_int4in env0 (world 40) (world 50) st2
           (admin (PUT_api_apps "1" mail)) "1" mail); reflexivity.
Defined.

Lemma create_then_delete_witness :
  (handle decimal_int4in env0 (world 40)
     (handle decimal_int4in env0 (world 30) st2 (admin (POST_api_apps wiki))).1
     (admin (DELETE_api_apps "3"))).2 =
    {| status := 200;
       body := json_removed "Uygulama silindi."
                 (App.mk 3 "Wiki" "https://wiki.example" None
                         (Some "https://wiki.example/health") 30) |} ∧
  apps (db (handle decimal_int4in env0 (world 40)
              (handle decimal_int4in env0 (world 30) st2 (admin (POST_api_apps wiki))).1
              (admin (DELETE_api_apps "3"))).1) = apps (db st2).
Proof.
  apply (create_then_delete decimal_int4in env0 (world 30) (world 40) st2
           (admin (POST_api_apps wiki)) (admin (DELETE_api_apps "3")) wiki
           (App.mk 3 "Wiki" "https://wiki.example" None
                   (Some "https://wiki.example/health") 30) "3"); try reflexivity.
  split.
  - rewrite st2_table. repeat constructor.
  - rewrite st2_table. simpl. repeat constructor; rewrite ?elem_of_cons, ?elem_of_nil;
      intros H; decompose [or] H; try discriminate; assumption.
Defined.
